(** * GhostOS: the recursive AIFunc execution engine

    A shallow embedding of [ghostos/core/aifunc/manager.py]
    ([DefaultAIFuncManagerImpl]): the bounded think loop [execute], the
    nested launcher [run], the fan-out [parallel_run], the key/value store
    ([get]/[set]) and the teardown [destroy].

    Python objects are passed explicitly: a method that mutates [self] returns
    the updated manager; the container collaborator, which several managers may
    alias, lives in a shared [World]; exceptions are the [Raise] outcome and a
    [finally] block is written out on every path. *)

From stdpp Require Import gmap strings list.
From Stdlib Require Import ZArith Lia.

Local Open Scope Z_scope.

(** ** Collaborators that the manager only holds handles to *)

Definition ContainerId := nat.
Definition Stream := nat.
Definition DriverId := nat.
Definition ResultClass := string.

(** Modelled from the spec: [ghostos.container.Container] is not part of the
    sources modelled here.  The manager asks one thing of it, [destroy()], which the
    spec requires to be safe to call several times.  The world records every
    [destroy()] call a container object received, in order; a container is
    valid as long as it received none. *)
Record World := mkWorld { destroy_calls : list ContainerId }.

Definition container_destroy (c : ContainerId) (w : World) : World :=
  mkWorld (destroy_calls w ++ [c]).

Definition releases (c : ContainerId) (w : World) : nat :=
  count_occ Nat.eq_dec (destroy_calls w) c.

Definition scope_valid (c : ContainerId) (w : World) : bool :=
  Nat.eqb (releases c w) 0.

(** ** Values, tasks, frames and steps *)

(** Python values as far as [execute] looks at them: [None], an instance of a
    subclass [cls] of [AIFuncResult], or any other object. *)
Inductive PyValue :=
| PyNone
| PyResult (cls : ResultClass) (data : Z)
| PyObject (cls : string) (data : Z).

Definition is_none (v : PyValue) : bool :=
  match v with PyNone => true | _ => false end.

(** [isinstance(v, AIFuncResult)] *)
Definition isinstance_AIFuncResult (v : PyValue) : bool :=
  match v with PyResult _ _ => true | _ => false end.

(** [type(v)], by name *)
Definition type_of (v : PyValue) : string :=
  match v with
  | PyNone => "NoneType"
  | PyResult cls _ => cls
  | PyObject cls _ => cls
  end.

(** Modelled from the spec: [ghostos.core.aifunc.func] is not part of the
    sources modelled here.  A task carries the three hooks the manager reads: the
    optional driver its class declares ([__aifunc_driver__]), its declared
    result type ([get_aifunc_result_type]) and its arguments. *)
Record AIFunc := mkAIFunc {
  aifunc_driver : option DriverId;
  aifunc_result_type : ResultClass;
  aifunc_args : Z
}.

Definition get_aifunc_result_type (fn : AIFunc) : ResultClass :=
  aifunc_result_type fn.

(** Modelled from the spec: [ExecFrame] and [ExecStep]
    ([ghostos.core.aifunc.interfaces]) are not part of the sources modelled here.  A
    step knows the depth of its frame and its 1-based sequence number; a frame
    knows its depth and the steps created for it so far. *)
Record ExecStep := mkStep { step_depth : Z; step_seq : nat }.

Record ExecFrame := mkFrame { frame_depth : Z; frame_steps : list ExecStep }.

(** [ExecFrame.from_func(fn)]: a root frame. *)
Definition from_func (fn : AIFunc) : ExecFrame := mkFrame 0 [].

(** [step.new_frame(fn)]: a frame one level below the step's frame. *)
Definition new_frame (step : ExecStep) (fn : AIFunc) : ExecFrame :=
  mkFrame (step_depth step + 1) [].

(** [frame.new_step()]: the next step of the frame, appended to it. *)
Definition new_step (frame : ExecFrame) : ExecFrame * ExecStep :=
  let step := mkStep (frame_depth frame) (S (length (frame_steps frame))) in
  (mkFrame (frame_depth frame) (frame_steps frame ++ [step]), step).

(** ** Outcomes *)

(** The exceptions of the engine.  [DepthExceeded], [ExceededMaxStep] and
    [InvalidResult] are the three [RuntimeError]s of the source, told apart by
    what their message reports. *)
Inductive Exception :=
| DepthExceeded (depth max_depth : Z)
| ExceededMaxStep (max_step : Z)
| InvalidResult (got : string) (expecting : ResultClass)
| AttributeError (attr : string)
| ValueError (msg : string)
| DriverError (msg : string).

(** A call returns, raises, or is still running when the fuel is spent. *)
Inductive Res (A : Type) :=
| Return (a : A)
| Raise (e : Exception)
| OutOfFuel.
Arguments Return {A} a.
Arguments Raise {A} e.
Arguments OutOfFuel {A}.

Definition bind {A B} (r : Res A) (k : A -> Res B) : Res B :=
  match r with
  | Return a => k a
  | Raise e => Raise e
  | OutOfFuel => OutOfFuel
  end.

Notation "x <- r ;; k" := (bind r (fun x => k))
  (at level 100, r at next level, right associativity).

(** Reading an attribute that [del] removed raises [AttributeError]. *)
Definition getattr {A} (name : string) (slot : option A) : Res A :=
  match slot with
  | Some a => Return a
  | None => Raise (AttributeError name)
  end.

(** ** The manager object *)

(** The attributes of [DefaultAIFuncManagerImpl].  The four that [destroy]
    deletes are options: [None] is a deleted attribute.  [_exec_step] and
    [_upstream] hold a Python [Optional], hence the inner option. *)
Record Manager := mkManager {
  _container : option ContainerId;
  _exec_step : option (option ExecStep);
  _upstream : option (option Stream);
  _llm_api_name : string;
  _values : option (gmap string PyValue);
  _max_depth : Z;
  _max_step : Z;
  _default_driver_type : DriverId;
  _destroyed : bool
}.

Definition DefaultAIFuncDriverImpl : DriverId := 0%nat.

(** [DefaultAIFuncManagerImpl.__init__] *)
Definition init (container : ContainerId) (step : option ExecStep)
    (upstream : option Stream) (default_driver : option DriverId)
    (llm_api_name : string) (max_depth max_step : Z) : Res Manager :=
  match step with
  | Some s =>
      if max_depth <? step_depth s
      then Raise (DepthExceeded (step_depth s) max_depth)
      else Return (mkManager (Some container) (Some step) (Some upstream)
                     llm_api_name (Some ∅) max_depth max_step
                     (default DefaultAIFuncDriverImpl default_driver) false)
  | None =>
      Return (mkManager (Some container) (Some step) (Some upstream)
                llm_api_name (Some ∅) max_depth max_step
                (default DefaultAIFuncDriverImpl default_driver) false)
  end.

(** [del self.<attr>]: the attribute must be there. *)
Definition del_container (m : Manager) : Manager :=
  mkManager None (_exec_step m) (_upstream m) (_llm_api_name m) (_values m)
    (_max_depth m) (_max_step m) (_default_driver_type m) (_destroyed m).

Definition del_values (m : Manager) : Manager :=
  mkManager (_container m) (_exec_step m) (_upstream m) (_llm_api_name m) None
    (_max_depth m) (_max_step m) (_default_driver_type m) (_destroyed m).

Definition del_exec_step (m : Manager) : Manager :=
  mkManager (_container m) None (_upstream m) (_llm_api_name m) (_values m)
    (_max_depth m) (_max_step m) (_default_driver_type m) (_destroyed m).

Definition del_upstream (m : Manager) : Manager :=
  mkManager (_container m) (_exec_step m) None (_llm_api_name m) (_values m)
    (_max_depth m) (_max_step m) (_default_driver_type m) (_destroyed m).

(** [self._values[key] = value] on a manager whose store is [vals] *)
Definition store (m : Manager) (vals : gmap string PyValue) (key : string)
    (value : PyValue) : Manager :=
  mkManager (_container m) (_exec_step m) (_upstream m) (_llm_api_name m)
    (Some (<[key := value]> vals))
    (_max_depth m) (_max_step m) (_default_driver_type m) (_destroyed m).

(** [sub_manager]: the child gets the caller's container object itself, its
    default driver, its model name and its maximal depth; [max_step] is not
    passed on and takes the constructor's default. *)
Definition sub_manager (self : Manager) (step : ExecStep)
    (upstream : option Stream) : Res Manager :=
  c <- getattr "_container" (_container self) ;;
  init c (Some step) upstream (Some (_default_driver_type self))
    (_llm_api_name self) (_max_depth self) 10.

(** [_sub_manager_fn]: the maker that [compiler] registers for [AIFuncCtx] in
    the compiler's container, so that the context a task sees at a step is
    [self.sub_manager(step, upstream)]. *)
Definition _sub_manager_fn (self : Manager) (step : ExecStep)
    (upstream : option Stream) : unit -> Res Manager :=
  fun _ => sub_manager self step upstream.

(** [context] *)
Definition context (self : Manager) : Manager := self.

(** [container] *)
Definition container (self : Manager) : Res ContainerId :=
  getattr "_container" (_container self).

(** [get]: [self._values.get(key, None)] *)
Definition get (self : Manager) (key : string) : Res PyValue :=
  vals <- getattr "_values" (_values self) ;;
  Return (default PyNone (vals !! key)).

(** [set]: [self._values[key] = value] *)
Definition set (self : Manager) (key : string) (value : PyValue)
    : Manager * Res unit :=
  match _values self with
  | Some vals => (store self vals key value, Return tt)
  | None => (self, Raise (AttributeError "_values"))
  end.

(** [values] *)
Definition values (self : Manager) : Res (gmap string PyValue) :=
  getattr "_values" (_values self).

(** [destroy]: behind the [_destroyed] guard, tear the container down and
    delete the four attributes, one statement after the other. *)
Definition destroy (self : Manager) (w : World) : World * Manager * Res unit :=
  if _destroyed self then (w, self, Return tt)
  else
    match _container self with
    | None => (w, self, Raise (AttributeError "_container"))
    | Some c =>
        let w := container_destroy c w in
        let self := del_container self in
        match _values self with
        | None => (w, self, Raise (AttributeError "_values"))
        | Some _ =>
            let self := del_values self in
            match _exec_step self with
            | None => (w, self, Raise (AttributeError "_exec_step"))
            | Some _ =>
                let self := del_exec_step self in
                match _upstream self with
                | None => (w, self, Raise (AttributeError "_upstream"))
                | Some _ => (w, del_upstream self, Return tt)
                end
            end
        end
    end.

(** The first lines of [run]: the frame of the launch, below the step the
    manager is bound to or a root frame when it is bound to none, and the
    step taken on it for the child manager. *)
Definition launch_frame (exec_step : option ExecStep) (fn : AIFunc)
    : ExecFrame * ExecStep :=
  new_step (match exec_step with
            | Some s => new_frame s fn
            | None => from_func fn
            end).

(** A future whose worker has not completed yet. *)
Definition still_running (future : string * Res PyValue) : bool :=
  match future.2 with
  | OutOfFuel => true
  | _ => false
  end.

(** ** Drivers and the think loop *)

Section Engine.

(** The conversation state is opaque to the manager. *)
Variable Thread : Type.

(** What a task sees of the manager that launches sub-tasks for it: [run]. *)
Definition RunCap : Type :=
  Manager -> string -> AIFunc -> World -> World * Manager * Res PyValue.

(** Modelled from the spec: the drivers ([ghostos.core.aifunc.driver]) are not
    part of the sources modelled here.  A driver class is instantiated on the task;
    [initialize] gives the first conversation state and [think] runs one
    iteration on the manager it is handed, which it may mutate and through
    which it may launch sub-tasks. *)
Record Driver := mkDriver {
  initialize : AIFunc -> Thread;
  think : AIFunc -> RunCap -> Manager -> Thread -> ExecStep ->
          option Stream -> World ->
          World * Manager * Res (Thread * PyValue * bool)
}.

(** The driver classes, by name. *)
Variable drivers : DriverId -> Driver.

(** [get_driver] *)
Definition get_driver (self : Manager) (fn : AIFunc) : Driver :=
  match aifunc_driver fn with
  | Some d => drivers d
  | None => drivers (_default_driver_type self)
  end.

(** What [execute] leaves behind: the world, the manager and the frame as
    mutated, the number of [think] calls the loop made, and the outcome. *)
Record ExecOut := mkOut {
  out_world : World;
  out_self : Manager;
  out_frame : ExecFrame;
  out_thinks : nat;
  out_res : Res PyValue
}.

Section Execute.

Variable cap : RunCap.
Variable driver : Driver.
Variable fn : AIFunc.
Variable upstream : option Stream.

(** The [while not finished] loop of [execute]; [step] is the local
    counter, [thinks] counts the calls of [driver.think]. *)
Fixpoint think_loop (fuel : nat) (step : Z) (thinks : nat) (w : World)
    (self : Manager) (frame : ExecFrame) (thread : Thread) : ExecOut :=
  match fuel with
  | O => mkOut w self frame thinks OutOfFuel
  | S fuel' =>
      let step := step + 1 in
      let '(frame, exec_step) := new_step frame in
      if negb (_max_step self =? 0) && (_max_step self <? step)
      then mkOut w self frame thinks (Raise (ExceededMaxStep (_max_step self)))
      else
        match think driver fn cap self thread exec_step upstream w with
        | (w, self, Return (thread, result, finished)) =>
            if finished
            then mkOut w self frame (S thinks) (Return result)
            else think_loop fuel' step (S thinks) w self frame thread
        | (w, self, Raise e) => mkOut w self frame (S thinks) (Raise e)
        | (w, self, OutOfFuel) => mkOut w self frame (S thinks) OutOfFuel
        end
  end.

End Execute.

(** [execute] *)
Definition execute (cap : RunCap) (fuel : nat) (self : Manager) (fn : AIFunc)
    (frame : option ExecFrame) (upstream : option Stream) (w : World)
    : ExecOut :=
  let frame := default (from_func fn) frame in
  let driver := get_driver self fn in
  let thread := initialize driver fn in
  let out := think_loop cap driver fn upstream fuel 0 0 w self frame thread in
  match out_res out with
  | Return result =>
      if negb (is_none result) && negb (isinstance_AIFuncResult result)
      then mkOut (out_world out) (out_self out) (out_frame out)
             (out_thinks out)
             (Raise (InvalidResult (type_of result)
                       (get_aifunc_result_type fn)))
      else out
  | _ => out
  end.

(** [run]: the [try] block, then the [finally] block on the child. *)
Definition run (cap : RunCap) (fuel : nat) (self : Manager) (key : string)
    (fn : AIFunc) (w : World) : World * Manager * Res PyValue :=
  match _exec_step self with
  | None => (w, self, Raise (AttributeError "_exec_step"))
  | Some exec_step =>
      let '(frame, sub_step) := launch_frame exec_step fn in
      match sub_manager self sub_step None with
      | Raise e => (w, self, Raise e)
      | OutOfFuel => (w, self, OutOfFuel)
      | Return child =>
          let '(w, self, child, r) :=
            match _upstream self with
            | None => (w, self, child, Raise (AttributeError "_upstream"))
            | Some upstream =>
                let out := execute cap fuel child fn (Some frame) upstream w in
                match out_res out with
                | Return result =>
                    match _values self with
                    | Some vals =>
                        (out_world out, store self vals key result,
                         out_self out, Return result)
                    | None =>
                        (out_world out, self, out_self out,
                         Raise (AttributeError "_values"))
                    end
                | r => (out_world out, self, out_self out, r)
                end
            end in
          match r with
          | OutOfFuel => (w, self, OutOfFuel)
          | _ =>
              match destroy child w with
              | (w, _, Return _) => (w, self, r)
              | (w, _, Raise e) => (w, self, Raise e)
              | (w, _, OutOfFuel) => (w, self, OutOfFuel)
              end
          end
      end
  end.

(** The [run] a driver reaches through the manager it is handed: every
    nested launch spends one unit of fuel. *)
Fixpoint engine (fuel : nat) : RunCap :=
  match fuel with
  | O => fun self _ _ w => (w, self, OutOfFuel)
  | S fuel' => run (engine fuel') (S fuel')
  end.

(** ** Fan-out *)

(** The workers of [parallel_run], each one [self.run(key, fn)], taken in
    the order in which they complete; the outcome of each is its future. *)
Fixpoint run_workers (cap : RunCap) (fuel : nat) (self : Manager)
    (completion : list (string * AIFunc)) (w : World)
    : World * Manager * list (string * Res PyValue) :=
  match completion with
  | [] => (w, self, [])
  | (key, fn) :: rest =>
      let '(w, self, r) := run cap fuel self key fn w in
      let '(w, self, futures) := run_workers cap fuel self rest w in
      (w, self, (key, r) :: futures)
  end.

(** The [for future in as_completed(futures)] loop: [future.result()]
    re-raises what the worker raised. *)
Fixpoint collect (futures : list (string * Res PyValue))
    (results : gmap string PyValue) (self : Manager)
    : Manager * Res (gmap string PyValue) :=
  match futures with
  | [] => (self, Return results)
  | (key, Return result) :: rest =>
      match _values self with
      | Some vals =>
          collect rest (<[key := result]> results) (store self vals key result)
      | None => (self, Raise (AttributeError "_values"))
      end
  | (_, Raise e) :: _ => (self, Raise e)
  | (_, OutOfFuel) :: _ => (self, OutOfFuel)
  end.

(** [parallel_run], the workers serialised in their completion order.  The
    executor refuses an empty pool.  Leaving the [with] block, by the
    [return] or by the exception of a future, waits for every worker: while a
    worker is still running the call is not over, whatever the futures taken
    in so far hold. *)
Definition parallel_run (cap : RunCap) (fuel : nat) (self : Manager)
    (completion : list (string * AIFunc)) (w : World)
    : World * Manager * Res (gmap string PyValue) :=
  match completion with
  | [] => (w, self, Raise (ValueError "max_workers must be greater than 0"))
  | _ =>
      let '(w, self, futures) := run_workers cap fuel self completion w in
      let '(self, r) := collect futures ∅ self in
      if existsb still_running futures then (w, self, OutOfFuel)
      else (w, self, r)
  end.

End Engine.

Arguments initialize {Thread} _ _.
Arguments think {Thread} _ _ _ _ _ _ _ _.
Arguments mkDriver {Thread} _ _.
Arguments get_driver {Thread} _ _ _.
Arguments think_loop {Thread} _ _ _ _ _ _ _ _ _ _ _.
Arguments execute {Thread} _ _ _ _ _ _ _ _.
Arguments run {Thread} _ _ _ _ _ _ _.
Arguments engine {Thread} _ _ _ _ _ _.
Arguments run_workers {Thread} _ _ _ _ _ _.
Arguments parallel_run {Thread} _ _ _ _ _ _.

(** ** Notions the properties are stated with *)

(** No attribute deleted, not marked destroyed: what [__init__] builds. *)
Definition live (m : Manager) : Prop :=
  is_Some (_container m) /\ is_Some (_values m) /\
  is_Some (_exec_step m) /\ is_Some (_upstream m) /\ _destroyed m = false.

(** [self._values.get(key)] as an option: [None] when the key or the store is
    missing. *)
Definition lookup_value (m : Manager) (key : string) : option PyValue :=
  match _values m with
  | Some vals => vals !! key
  | None => None
  end.


Section DriverProperties.

Context {Thread : Type}.

(** A driver that leaves the step bound of the manager it runs on alone. *)
Definition keeps_max_step (d : Driver Thread) : Prop :=
  forall fn cap m t s u w,
    _max_step (think d fn cap m t s u w).1.2 = _max_step m.

(** A driver whose [think] always returns, and never with [finished]. *)
Definition never_finishes (d : Driver Thread) : Prop :=
  forall fn cap m t s u w,
    exists t' r, (think d fn cap m t s u w).2 = Return (t', r, false).

End DriverProperties.

(** The steps of a frame are numbered 1, 2, ... in creation order. *)
Definition frame_wf (f : ExecFrame) : Prop :=
  forall i s, frame_steps f !! i = Some s -> step_seq s = S i.

(** ** Concrete drivers and tasks *)

(** Drivers over a conversation state that counts the turns taken. *)
Definition oneshot_driver : Driver nat :=
  mkDriver (fun _ => 0%nat)
    (fun fn _ m t _ _ w =>
       (w, m, Return (S t, PyResult (aifunc_result_type fn) (aifunc_args fn), true))).

Definition idle_driver : Driver nat :=
  mkDriver (fun _ => 0%nat)
    (fun _ _ m t _ _ w => (w, m, Return (S t, PyNone, false))).

Definition failing_driver : Driver nat :=
  mkDriver (fun _ => 0%nat)
    (fun _ _ m _ _ _ w => (w, m, Raise (DriverError "boom"))).

(** Finishes with a result of another [AIFuncResult] subclass than declared. *)
Definition other_result_driver : Driver nat :=
  mkDriver (fun _ => 0%nat)
    (fun fn _ m t _ _ w => (w, m, Return (S t, PyResult "OtherResult" 1, true))).

(** Finishes with a value that is no [AIFuncResult] at all. *)
Definition str_driver : Driver nat :=
  mkDriver (fun _ => 0%nat)
    (fun fn _ m t _ _ w => (w, m, Return (S t, PyObject "str" 1, true))).

(** A task that launches itself: with [n > 0] launches left it asks the
    context bound to its step, made by [_sub_manager_fn], to [run] the task
    with [n - 1] launches left, and finishes with what that returns. *)
Definition self_launch_driver : Driver nat :=
  mkDriver (fun _ => 0%nat)
    (fun fn cap m t step upstream w =>
       if aifunc_args fn <=? 0
       then (w, m, Return (S t, PyResult (aifunc_result_type fn) 0, true))
       else
         match _sub_manager_fn m step upstream tt with
         | Return ctx =>
             let '(w, _, r) :=
               cap ctx "sub"
                 (mkAIFunc (aifunc_driver fn) (aifunc_result_type fn)
                    (aifunc_args fn - 1)) w in
             match r with
             | Return v => (w, m, Return (S t, v, true))
             | Raise e => (w, m, Raise e)
             | OutOfFuel => (w, m, OutOfFuel)
             end
         | Raise e => (w, m, Raise e)
         | OutOfFuel => (w, m, OutOfFuel)
         end).

Definition example_drivers (id : DriverId) : Driver nat :=
  match id with
  | 0%nat => oneshot_driver
  | 1%nat => idle_driver
  | 2%nat => failing_driver
  | 3%nat => other_result_driver
  | 4%nat => str_driver
  | _ => self_launch_driver
  end.

Definition oneshot_task : AIFunc := mkAIFunc None "MyResult" 42.
Definition idle_task : AIFunc := mkAIFunc (Some 1%nat) "MyResult" 0.
Definition failing_task : AIFunc := mkAIFunc (Some 2%nat) "MyResult" 0.
Definition other_result_task : AIFunc := mkAIFunc (Some 3%nat) "MyResult" 0.
Definition str_task : AIFunc := mkAIFunc (Some 4%nat) "MyResult" 0.
Definition self_launch_task (n : nat) : AIFunc :=
  mkAIFunc (Some 5%nat) "MyResult" (Z.of_nat n).

(** A root manager on container 7, as the provider's factory builds it. *)
Definition root_manager (max_depth max_step : Z) : Manager :=
  mkManager (Some 7%nat) (Some None) (Some None) "" (Some ∅)
    max_depth max_step DefaultAIFuncDriverImpl false.

(** ** The provider *)

(** [DefaultAIFuncManagerProvider]: it keeps the model name it was built
    with. *)
Record DefaultAIFuncManagerProvider := mkProvider {
  provider_llm_api_name : string
}.

(** [singleton] *)
Definition singleton (p : DefaultAIFuncManagerProvider) : bool := false.

(** [factory]: a manager on the given container, bound to no step, with the
    constructor's defaults for everything but the model name. *)
Definition factory (p : DefaultAIFuncManagerProvider) (con : ContainerId)
    : Res Manager :=
  init con None None None (provider_llm_api_name p) 10 10.

(** ** Further notions *)

(** [destroy] called [n] times in a row on one manager object, whatever each
    call returns or raises. *)
Fixpoint destroy_times (n : nat) (m : Manager) (w : World) : World * Manager :=
  match n with
  | O => (w, m)
  | S n' => let '(w', m', _) := destroy m w in destroy_times n' m' w'
  end.

(** What [execute] lets through as a result: [None] or an [AIFuncResult]. *)
Definition valid_result (v : PyValue) : bool :=
  is_none v || isinstance_AIFuncResult v.

Section MoreDriverProperties.

Context {Thread : Type}.

(** A driver that hands back the manager it was given as it was. *)
Definition leaves_manager (d : Driver Thread) : Prop :=
  forall fn cap m t s u w, (think d fn cap m t s u w).1.2 = m.

(** A driver that, for the task [fn], finishes in every [think] with the
    value [v], touching neither the manager nor the world. *)
Definition finishes_at_once (d : Driver Thread) (fn : AIFunc) (v : PyValue)
    : Prop :=
  forall cap m t s u w,
    exists t', think d fn cap m t s u w = (w, m, Return (t', v, true)).

(** A driver whose [think] touches neither the manager nor the world. *)
Definition pure_driver (d : Driver Thread) : Prop :=
  forall fn cap m t s u w, (think d fn cap m t s u w).1 = (w, m).

End MoreDriverProperties.

(** ** Runs of the think loop *)

(** The test at the head of an iteration of the loop of [execute], on the
    counter as already incremented: the bound is not 0 and the counter is
    beyond it. *)
Definition limit_hit (self : Manager) (step : Z) : bool :=
  negb (_max_step self =? 0) && (_max_step self <? step).

Section Runs.

Context {Thread : Type}.
Variable d : Driver Thread.
Variable fn : AIFunc.
Variable cap : RunCap.
Variable upstream : option Stream.

(** [unfinished n step s s']: from the loop state [s] (world, manager, frame
    and conversation state) with the counter at [step], each of the next [n]
    iterations is within the bound and its [think] returns with [finished]
    false; [s'] is the state they leave. *)
Inductive unfinished
    : nat -> Z -> World * Manager * ExecFrame * Thread ->
      World * Manager * ExecFrame * Thread -> Prop :=
| unfinished_O step s : unfinished 0 step s s
| unfinished_S n step w self frame thread w' self' thread' r s' :
    limit_hit self (step + 1) = false ->
    think d fn cap self thread (new_step frame).2 upstream w
    = (w', self', Return (thread', r, false)) ->
    unfinished n (step + 1) (w', self', (new_step frame).1, thread') s' ->
    unfinished (S n) step (w, self, frame, thread) s'.

End Runs.

(** ** More drivers and tasks *)

(** A task that launches, through the context bound to its step, a task
    whose driver never finishes, and hands on what that launch gives. *)
Definition launch_idle_driver : Driver nat :=
  mkDriver (fun _ => 0%nat)
    (fun fn cap m t step upstream w =>
       match _sub_manager_fn m step upstream tt with
       | Return ctx =>
           let '(w, _, r) := cap ctx "sub" idle_task w in
           match r with
           | Return v => (w, m, Return (S t, v, true))
           | Raise e => (w, m, Raise e)
           | OutOfFuel => (w, m, OutOfFuel)
           end
       | Raise e => (w, m, Raise e)
       | OutOfFuel => (w, m, OutOfFuel)
       end).

(** A task that launches itself through [run] on the manager its driver is
    handed, which is that manager's own [context]: with [n > 0] launches left
    it runs the task with [n - 1] launches left and finishes with what that
    returns. *)
Definition self_run_driver : Driver nat :=
  mkDriver (fun _ => 0%nat)
    (fun fn cap m t step upstream w =>
       if aifunc_args fn <=? 0
       then (w, m, Return (S t, PyResult (aifunc_result_type fn) 0, true))
       else
         let '(w, m, r) :=
           cap (context m) "sub"
             (mkAIFunc (aifunc_driver fn) (aifunc_result_type fn)
                (aifunc_args fn - 1)) w in
         match r with
         | Return v => (w, m, Return (S t, v, true))
         | Raise e => (w, m, Raise e)
         | OutOfFuel => (w, m, OutOfFuel)
         end).

Definition more_drivers (id : DriverId) : Driver nat :=
  match id with
  | 6%nat => launch_idle_driver
  | 7%nat => self_run_driver
  | _ => example_drivers id
  end.

Definition launch_idle_task : AIFunc := mkAIFunc (Some 6%nat) "MyResult" 0.
Definition self_run_task (n : nat) : AIFunc :=
  mkAIFunc (Some 7%nat) "MyResult" (Z.of_nat n).

(** * Properties *)

(** ** Managers in working order *)

(** A record whose deletable attributes are all written out is in working
    order. *)
Ltac solve_live := unfold live; simpl; eauto 10.

Lemma init_inv container step upstream dd name md ms m :
  init container step upstream dd name md ms = Return m ->
  m = mkManager (Some container) (Some step) (Some upstream) name (Some ∅)
        md ms (default DefaultAIFuncDriverImpl dd) false.
Proof.
  unfold init. destruct step as [s|].
  - destruct (md <? step_depth s); congruence.
  - congruence.
Qed.

Lemma init_live container step upstream dd name md ms m :
  init container step upstream dd name md ms = Return m -> live m.
Proof.
  intros H. apply init_inv in H. subst m. solve_live.
Qed.

Lemma sub_manager_inv self step upstream child :
  sub_manager self step upstream = Return child ->
  exists c, _container self = Some c /\
    child = mkManager (Some c) (Some (Some step)) (Some upstream)
              (_llm_api_name self) (Some ∅) (_max_depth self) 10
              (_default_driver_type self) false.
Proof.
  unfold sub_manager.
  destruct (_container self) as [c|]; cbn [getattr bind]; [|discriminate].
  intros H. apply init_inv in H. eauto.
Qed.

(** [destroy] on a manager in working order: one call to the container, the
    four attributes gone, and the [_destroyed] flag as it was. *)
Lemma destroy_live m w :
  live m ->
  exists c, _container m = Some c /\
    destroy m w =
      (container_destroy c w,
       mkManager None None None (_llm_api_name m) None (_max_depth m)
         (_max_step m) (_default_driver_type m) false,
       Return tt).
Proof.
  intros (Hc & Hv & He & Hu & Hd).
  destruct m as [c v e u n md ms dd d]; simpl in *. subst d.
  destruct Hc as [c' ->], Hv as [v' ->], He as [e' ->], Hu as [u' ->].
  exists c'. split; [reflexivity|]. reflexivity.
Qed.

Lemma releases_destroy c w :
  releases c (container_destroy c w) = S (releases c w).
Proof.
  unfold releases, container_destroy. simpl.
  rewrite count_occ_app. simpl. destruct (Nat.eq_dec c c); [|congruence].
  apply Nat.add_1_r.
Qed.

Lemma scope_invalid_after_destroy c w :
  scope_valid c (container_destroy c w) = false.
Proof. unfold scope_valid. rewrite releases_destroy. reflexivity. Qed.

(** ** Resource scopes of parent and child *)

(** C1 (as the code behaves): [sub_manager] hands the caller's own container
    object to the child, not a scope derived from it.  Destroying the child
    therefore invalidates the scope of the parent, and destroying the parent
    invalidates the scope of the child. *)
Theorem sub_manager_aliases_parent_scope
    (self : Manager) (step : ExecStep) (upstream : option Stream)
    (child : Manager) (c : ContainerId) (w : World) :
  sub_manager self step upstream = Return child ->
  _container self = Some c ->
  live self ->
  _container child = Some c /\
  (exists child', destroy child w = (container_destroy c w, child', Return tt)) /\
  scope_valid c (container_destroy c w) = false /\
  (exists self', destroy self w = (container_destroy c w, self', Return tt)).
Proof.
  intros Hsub Hc Hlive.
  destruct (sub_manager_inv _ _ _ _ Hsub) as (c' & Hc' & ->).
  rewrite Hc in Hc'. injection Hc' as <-.
  split; [reflexivity|]. split; [|split].
  - eexists. reflexivity.
  - apply scope_invalid_after_destroy.
  - destruct (destroy_live self w Hlive) as (c2 & Hc2 & ->).
    rewrite Hc in Hc2. injection Hc2 as <-. eauto.
Qed.

Lemma root_manager_init max_depth max_step :
  init 7%nat None None None "" max_depth max_step
  = Return (root_manager max_depth max_step).
Proof. reflexivity. Qed.

Lemma root_manager_live max_depth max_step : live (root_manager max_depth max_step).
Proof. exact (init_live _ _ _ _ _ _ _ _ (root_manager_init max_depth max_step)). Qed.

Lemma sub_manager_aliases_parent_scope_witness :
  exists child,
    sub_manager (root_manager 10 10) (mkStep 0 1) None = Return child /\
    _container child = _container (root_manager 10 10) /\
    scope_valid 7%nat (mkWorld []) = true /\
    scope_valid 7%nat (destroy child (mkWorld [])).1.1 = false.
Proof.
  eexists. split; [reflexivity|].
  destruct (sub_manager_aliases_parent_scope (root_manager 10 10)
              (mkStep 0 1) None _ 7%nat (mkWorld []) eq_refl eq_refl
              (root_manager_live 10 10)) as (H1 & [child' H2] & H3 & _).
  split; [exact H1|]. split; [reflexivity|].
  rewrite H2. exact H3.
Defined.

(** One nested launch is enough: after [run] returned its result, the scope
    of the manager that called it has been torn down. *)
Example run_tears_down_caller_scope :
  let '(w, self, r) :=
    run example_drivers (engine example_drivers 0) 3 (root_manager 10 10)
      "answer" oneshot_task (mkWorld []) in
  r = Return (PyResult "MyResult" 42) /\
  _container self = Some 7%nat /\
  scope_valid 7%nat w = false.
Proof. repeat split. Qed.

(** ** Teardown *)

(** C2 (as the code behaves): [destroy] never sets [_destroyed], so its guard
    never fires.  On a manager fresh from the constructor the first call
    succeeds and the second one raises [AttributeError] on the deleted
    [_container] attribute. *)
Theorem destroy_twice_raises
    (container : ContainerId) (step : option ExecStep)
    (upstream : option Stream) (dd : option DriverId) (name : string)
    (md ms : Z) (m : Manager) (w : World) :
  init container step upstream dd name md ms = Return m ->
  exists m1,
    destroy m w = (container_destroy container w, m1, Return tt) /\
    _destroyed m1 = false /\
    destroy m1 (container_destroy container w)
    = (container_destroy container w, m1, Raise (AttributeError "_container")).
Proof.
  intros H. apply init_inv in H. subst m.
  eexists. split; [reflexivity|]. split; reflexivity.
Qed.

Lemma destroy_twice_raises_witness :
  exists m1,
    destroy (root_manager 10 10) (mkWorld [])
    = (mkWorld [7%nat], m1, Return tt) /\
    _destroyed m1 = false /\
    destroy m1 (mkWorld [7%nat])
    = (mkWorld [7%nat], m1, Raise (AttributeError "_container")).
Proof.
  exact (destroy_twice_raises 7%nat None None None "" 10 10 _ (mkWorld [])
           (root_manager_init 10 10)).
Defined.

(** ** The think loop *)

Section Loop.

Context {Thread : Type}.

Lemma from_func_wf fn : frame_wf (from_func fn).
Proof. intros i s H. simpl in H. rewrite lookup_nil in H. discriminate. Qed.

Lemma new_frame_wf step fn : frame_wf (new_frame step fn).
Proof. intros i s H. simpl in H. rewrite lookup_nil in H. discriminate. Qed.

Lemma new_step_wf f : frame_wf f -> frame_wf (new_step f).1.
Proof.
  intros Hwf i s. simpl. intros H.
  apply lookup_app_Some in H as [H|[Hle H]].
  - eauto.
  - destruct (i - length (frame_steps f))%nat as [|j] eqn:E; simpl in H.
    + injection H as <-. simpl. lia.
    + rewrite lookup_nil in H. discriminate.
Qed.

Lemma new_step_length f :
  length (frame_steps (new_step f).1) = S (length (frame_steps f)).
Proof. simpl. rewrite length_app. simpl. apply Nat.add_1_r. Qed.

Variable cap : RunCap.
Variable d : Driver Thread.
Variable fn : AIFunc.
Variable upstream : option Stream.

(** With a bound [S >= 1] and a driver that never finishes, the loop raises
    in the iteration whose counter first exceeds [S], after one [think] call
    for each of the counters up to [S]. *)
Lemma think_loop_limit (S : Z) :
  keeps_max_step d -> never_finishes d -> 1 <= S ->
  forall fuel step thinks w self frame thread,
    _max_step self = S -> 0 <= step <= S ->
    (Z.to_nat (S - step) < fuel)%nat ->
    let out := think_loop cap d fn upstream fuel step thinks w self frame thread in
    out_res out = Raise (ExceededMaxStep S) /\
    out_thinks out = (thinks + Z.to_nat (S - step))%nat.
Proof.
  intros Hkeep Hnf HS. induction fuel as [|fuel IH];
    intros step thinks w self frame thread Hms Hstep Hfuel; [lia|].
  cbn [think_loop]. destruct (new_step frame) as [frame' exec_step].
  rewrite Hms.
  destruct (Z.eq_dec step S) as [->|Hne].
  - replace (negb (S =? 0) && (S <? S + 1)) with true
      by (symmetry; apply andb_true_intro; split;
          [apply negb_true_iff; lia | lia]).
    simpl. split; [reflexivity|]. rewrite Z.sub_diag. simpl. lia.
  - replace (negb (S =? 0) && (S <? step + 1)) with false
      by (symmetry; apply andb_false_iff; right; lia).
    specialize (Hkeep fn cap self thread exec_step upstream w).
    destruct (Hnf fn cap self thread exec_step upstream w) as (t' & r & Hr).
    destruct (think d fn cap self thread exec_step upstream w)
      as [[w' self'] res]. simpl in Hr, Hkeep. subst res.
    destruct (IH (step + 1) (Datatypes.S thinks) w' self' frame' t')
      as [H1 H2]; [lia|lia|lia|].
    split; [exact H1|]. rewrite H2.
    replace (S - step) with (Z.succ (S - (step + 1))) by lia.
    rewrite Z2Nat.inj_succ by lia. lia.
Qed.

(** With the bound 0 and a driver that never finishes, the loop is still
    running whatever the fuel, with one [think] call per unit spent. *)
Lemma think_loop_diverges :
  keeps_max_step d -> never_finishes d ->
  forall fuel step thinks w self frame thread,
    _max_step self = 0 ->
    let out := think_loop cap d fn upstream fuel step thinks w self frame thread in
    out_res out = OutOfFuel /\ out_thinks out = (thinks + fuel)%nat.
Proof.
  intros Hkeep Hnf. induction fuel as [|fuel IH];
    intros step thinks w self frame thread Hms.
  - simpl. split; [reflexivity|lia].
  - cbn [think_loop]. destruct (new_step frame) as [frame' exec_step].
    rewrite Hms. simpl.
    specialize (Hkeep fn cap self thread exec_step upstream w).
    destruct (Hnf fn cap self thread exec_step upstream w) as (t' & r & Hr).
    destruct (think d fn cap self thread exec_step upstream w)
      as [[w' self'] res]. simpl in Hr, Hkeep. subst res.
    destruct (IH (step + 1) (S thinks) w' self' frame' t') as [H1 H2]; [lia|].
    split; [exact H1|]. rewrite H2. lia.
Qed.

(** Whatever the driver does, the loop appends well-numbered steps. *)
Lemma think_loop_wf :
  forall fuel step thinks w self frame thread,
    frame_wf frame ->
    frame_wf (out_frame
                (think_loop cap d fn upstream fuel step thinks w self frame thread)).
Proof.
  induction fuel as [|fuel IH]; intros step thinks w self frame thread Hwf;
    [exact Hwf|].
  cbn [think_loop]. pose proof (new_step_wf frame Hwf) as Hwf'.
  destruct (new_step frame) as [frame' exec_step]. simpl in Hwf'.
  destruct (negb (_max_step self =? 0) && (_max_step self <? step + 1));
    [exact Hwf'|].
  destruct (think d fn cap self thread exec_step upstream w)
    as [[w' self'] [[[t' r] [|]]|e|]]; simpl; auto.
Qed.

(** Under a bound [S >= 1] the loop creates at most one step more than the
    iterations it has left: the step of the iteration that hits the limit
    exists before the check. *)
Lemma think_loop_steps (S : Z) :
  keeps_max_step d -> 1 <= S ->
  forall fuel step thinks w self frame thread,
    _max_step self = S -> 0 <= step <= S ->
    (length (frame_steps
               (out_frame
                  (think_loop cap d fn upstream fuel step thinks w self frame thread)))
     <= length (frame_steps frame) + Z.to_nat (S - step) + 1)%nat.
Proof.
  intros Hkeep HS. induction fuel as [|fuel IH];
    intros step thinks w self frame thread Hms Hstep; [simpl; lia|].
  cbn [think_loop]. pose proof (new_step_length frame) as Hlen.
  destruct (new_step frame) as [frame' exec_step]. simpl in Hlen.
  rewrite Hms.
  destruct (negb (S =? 0) && (S <? step + 1)) eqn:Hchk; [simpl; lia|].
  apply andb_false_iff in Hchk as [Hchk|Hchk];
    [apply negb_false_iff in Hchk; lia|].
  specialize (Hkeep fn cap self thread exec_step upstream w).
  destruct (think d fn cap self thread exec_step upstream w)
    as [[w' self'] res]. simpl in Hkeep.
  assert (Hbound : (length (frame_steps frame')
                    <= length (frame_steps frame) + Z.to_nat (S - step) + 1)%nat)
    by lia.
  destruct res as [[[t' r] [|]]|e|]; simpl; try exact Hbound.
  specialize (IH (step + 1) (Datatypes.S thinks) w' self' frame' t').
  assert (Z.to_nat (S - step) = Datatypes.S (Z.to_nat (S - (step + 1)))) as E.
  { replace (S - step) with (Z.succ (S - (step + 1))) by lia.
    rewrite Z2Nat.inj_succ by lia. reflexivity. }
  rewrite E. rewrite Hlen in IH. etransitivity; [apply IH; lia|]. lia.
Qed.

End Loop.

Lemma idle_keeps_max_step : keeps_max_step idle_driver.
Proof. intros fn cap m t s u w. reflexivity. Qed.

Lemma idle_never_finishes : never_finishes idle_driver.
Proof. intros fn cap m t s u w. simpl. eauto. Qed.

Lemma oneshot_keeps_max_step : keeps_max_step oneshot_driver.
Proof. intros fn cap m t s u w. reflexivity. Qed.

(** ** The step limit *)

(** C3 (amended): for every configured maximum [S >= 1] and every task whose
    driver never finishes, [execute] raises the step-limit error after
    exactly [S] calls of [think], given fuel for more than [S] iterations. *)
Theorem execute_step_limit {Thread : Type} (drivers : DriverId -> Driver Thread)
    (cap : RunCap) (self : Manager) (fn : AIFunc) (frame : option ExecFrame)
    (upstream : option Stream) (w : World) (fuel : nat) (S : Z) :
  1 <= S ->
  _max_step self = S ->
  keeps_max_step (get_driver drivers self fn) ->
  never_finishes (get_driver drivers self fn) ->
  (Z.to_nat S < fuel)%nat ->
  out_res (execute drivers cap fuel self fn frame upstream w)
  = Raise (ExceededMaxStep S) /\
  out_thinks (execute drivers cap fuel self fn frame upstream w) = Z.to_nat S.
Proof.
  intros HS Hms Hkeep Hnf Hfuel. unfold execute.
  destruct (think_loop_limit cap (get_driver drivers self fn) fn upstream S
              Hkeep Hnf HS fuel 0 0%nat w self (default (from_func fn) frame)
              (initialize (get_driver drivers self fn) fn) Hms)
    as [H1 H2]; [lia | rewrite Z.sub_0_r; exact Hfuel |].
  rewrite H1. split; [exact H1|]. rewrite H2, Z.sub_0_r. reflexivity.
Qed.

Lemma execute_step_limit_witness :
  out_res (execute example_drivers (engine example_drivers 0) 4
             (root_manager 10 3) idle_task None None (mkWorld []))
  = Raise (ExceededMaxStep 3) /\
  out_thinks (execute example_drivers (engine example_drivers 0) 4
                (root_manager 10 3) idle_task None None (mkWorld []))
  = 3%nat.
Proof.
  apply (execute_step_limit example_drivers (engine example_drivers 0)
           (root_manager 10 3) idle_task None None (mkWorld []) 4 3).
  - lia.
  - reflexivity.
  - exact idle_keeps_max_step.
  - exact idle_never_finishes.
  - simpl. lia.
Defined.

(** C3 as stated fails at [S = 0]: with a driver that never finishes,
    [execute] raises no step-limit error whatever the fuel. *)
Lemma execute_step_limit_fails_at_zero :
  ~ exists fuel,
      out_res (execute example_drivers (engine example_drivers fuel) fuel
                 (root_manager 10 0) idle_task None None (mkWorld []))
      = Raise (ExceededMaxStep 0).
Proof.
  intros [fuel H]. unfold execute in H.
  destruct (think_loop_diverges (engine example_drivers fuel)
              (get_driver example_drivers (root_manager 10 0) idle_task)
              idle_task None idle_keeps_max_step idle_never_finishes
              fuel 0 0%nat (mkWorld []) (root_manager 10 0)
              (default (from_func idle_task) None)
              (initialize (get_driver example_drivers (root_manager 10 0) idle_task)
                 idle_task) eq_refl) as [H1 _].
  rewrite H1 in H. cbv beta iota zeta in H. rewrite H1 in H. discriminate.
Qed.

(** With the bound 0, a step-limit error that ends the loop is one that a
    call of [think] raised. *)
Lemma think_loop_limit_origin {Thread : Type} cap (d : Driver Thread) fn
    upstream :
  keeps_max_step d ->
  forall fuel step thinks w self frame thread k,
    _max_step self = 0 ->
    out_res (think_loop cap d fn upstream fuel step thinks w self frame thread)
    = Raise (ExceededMaxStep k) ->
    exists m t s w0,
      (think d fn cap m t s upstream w0).2 = Raise (ExceededMaxStep k).
Proof.
  intros Hkeep. induction fuel as [|fuel IH];
    intros step thinks w self frame thread k Hms; [discriminate|].
  cbn [think_loop]. destruct (new_step frame) as [frame' exec_step].
  rewrite Hms. cbn [Z.eqb negb andb].
  specialize (Hkeep fn cap self thread exec_step upstream w).
  destruct (think d fn cap self thread exec_step upstream w)
    as [[w' self'] res] eqn:Hthink. cbn [fst snd] in Hkeep.
  destruct res as [[[t' r] [|]]|e|]; cbn [out_res]; try discriminate.
  - apply IH. rewrite Hkeep. exact Hms.
  - intros [= ->]. exists self, thread, exec_step, w. rewrite Hthink.
    reflexivity.
Qed.

(** C10 (amended): with maximum steps 0, the loop of [execute] makes no
    step-limit check of its own.  For every driver that leaves the bound of
    the manager alone and every task, a step-limit error that comes out of
    [execute] is one that a call of [think] raised (a sub-task launched through
    [run] executes under the bound of its child manager), and with a driver
    whose [think] always returns unfinished the loop is still running after
    any number of iterations. *)
Theorem execute_unbounded_when_zero {Thread : Type}
    (drivers : DriverId -> Driver Thread) (cap : RunCap) (self : Manager)
    (fn : AIFunc) (frame : option ExecFrame) (upstream : option Stream)
    (w : World) (fuel : nat) :
  _max_step self = 0 ->
  keeps_max_step (get_driver drivers self fn) ->
  (forall k,
     out_res (execute drivers cap fuel self fn frame upstream w)
     = Raise (ExceededMaxStep k) ->
     exists m t s w0,
       (think (get_driver drivers self fn) fn cap m t s upstream w0).2
       = Raise (ExceededMaxStep k)) /\
  (never_finishes (get_driver drivers self fn) ->
   out_res (execute drivers cap fuel self fn frame upstream w) = OutOfFuel /\
   out_thinks (execute drivers cap fuel self fn frame upstream w) = fuel).
Proof.
  intros Hms Hkeep. split.
  - intros k. unfold execute. cbv zeta.
    pose proof (think_loop_limit_origin cap (get_driver drivers self fn) fn
                  upstream Hkeep fuel 0 0%nat w self
                  (default (from_func fn) frame)
                  (initialize (get_driver drivers self fn) fn) k Hms) as H.
    destruct (out_res (think_loop _ _ _ _ _ _ _ _ _ _ _)) as [result|e|] eqn:E.
    + destruct (negb (is_none result) && negb (isinstance_AIFuncResult result));
        cbn [out_res]; [discriminate | rewrite E; discriminate].
    + rewrite E. exact H.
    + rewrite E. discriminate.
  - intros Hnf. unfold execute.
    destruct (think_loop_diverges cap (get_driver drivers self fn) fn upstream
                Hkeep Hnf fuel 0 0%nat w self (default (from_func fn) frame)
                (initialize (get_driver drivers self fn) fn) Hms) as [H1 H2].
    rewrite H1. split; [exact H1 | exact H2].
Qed.

Lemma launch_idle_keeps_max_step : keeps_max_step launch_idle_driver.
Proof.
  intros fn cap m t s u w. unfold launch_idle_driver, think.
  destruct (_sub_manager_fn m s u tt) as [ctx| |]; try reflexivity.
  destruct (cap ctx "sub" idle_task w) as [[w' ctx'] [v|e|]]; reflexivity.
Qed.

Lemma execute_unbounded_when_zero_witness :
  (exists m t s w0,
     (think launch_idle_driver launch_idle_task (engine more_drivers 12) m t s
        None w0).2
     = Raise (ExceededMaxStep 10)) /\
  out_res (execute example_drivers (engine example_drivers 0) 25
             (root_manager 10 0) idle_task None None (mkWorld []))
  = OutOfFuel /\
  out_thinks (execute example_drivers (engine example_drivers 0) 25
                (root_manager 10 0) idle_task None None (mkWorld []))
  = 25%nat.
Proof.
  split.
  - apply (proj1 (execute_unbounded_when_zero more_drivers
                    (engine more_drivers 12) (root_manager 10 0)
                    launch_idle_task None None (mkWorld []) 12 eq_refl
                    launch_idle_keeps_max_step) 10).
    reflexivity.
  - apply (execute_unbounded_when_zero example_drivers
             (engine example_drivers 0) (root_manager 10 0) idle_task None
             None (mkWorld []) 25 eq_refl idle_keeps_max_step).
    exact idle_never_finishes.
Defined.

(** C10 as stated fails: on a manager with maximum steps 0, a driver that
    launches a sub-task that never finishes makes [execute] raise the
    step-limit error of the child, whose bound is 10. *)
Lemma execute_zero_bound_raises_child_limit :
  _max_step (root_manager 10 0) = 0 /\
  out_res (execute more_drivers (engine more_drivers 12) 12 (root_manager 10 0)
             launch_idle_task None None (mkWorld []))
  = Raise (ExceededMaxStep 10).
Proof. split; reflexivity. Qed.

(** ** The result check *)

(** C4 (amended): when the think loop ends with a result, [execute] rejects
    it with the result-type error, returning nothing, exactly when it is
    neither [None] nor an instance of the base type [AIFuncResult]; a result
    of any [AIFuncResult] subclass is returned as it is, whatever type the
    task declares. *)
Theorem execute_checks_result_base_type {Thread : Type}
    (drivers : DriverId -> Driver Thread) (cap : RunCap) (self : Manager)
    (fn : AIFunc) (frame : option ExecFrame) (upstream : option Stream)
    (w : World) (fuel : nat) (result : PyValue) :
  out_res (think_loop cap (get_driver drivers self fn) fn upstream fuel 0 0%nat
             w self (default (from_func fn) frame)
             (initialize (get_driver drivers self fn) fn))
  = Return result ->
  (is_none result = false -> isinstance_AIFuncResult result = false ->
   out_res (execute drivers cap fuel self fn frame upstream w)
   = Raise (InvalidResult (type_of result) (get_aifunc_result_type fn))) /\
  (isinstance_AIFuncResult result = true ->
   out_res (execute drivers cap fuel self fn frame upstream w) = Return result) /\
  (is_none result = true ->
   out_res (execute drivers cap fuel self fn frame upstream w) = Return result).
Proof.
  intros Hloop. unfold execute. cbv zeta. rewrite Hloop.
  repeat split.
  - intros -> ->. reflexivity.
  - intros ->. rewrite andb_false_r. exact Hloop.
  - intros ->. exact Hloop.
Qed.

Lemma execute_checks_result_base_type_witness :
  out_res (execute example_drivers (engine example_drivers 0) 3
             (root_manager 10 10) str_task None None (mkWorld []))
  = Raise (InvalidResult "str" "MyResult").
Proof.
  exact (proj1 (execute_checks_result_base_type example_drivers
                  (engine example_drivers 0) (root_manager 10 10) str_task
                  None None (mkWorld []) 3 (PyObject "str" 1) eq_refl)
           eq_refl eq_refl).
Defined.

(** C4 as stated fails: a result of another [AIFuncResult] subclass than the
    one the task declares is returned, not rejected. *)
Lemma execute_accepts_other_result_type :
  get_aifunc_result_type other_result_task = "MyResult" /\
  type_of (PyResult "OtherResult" 1) <> get_aifunc_result_type other_result_task /\
  out_res (execute example_drivers (engine example_drivers 0) 3
             (root_manager 10 10) other_result_task None None (mkWorld []))
  = Return (PyResult "OtherResult" 1).
Proof. split; [reflexivity|]. split; [discriminate|reflexivity]. Qed.

(** ** Steps created for a frame *)

Lemma execute_out_frame {Thread : Type} (drivers : DriverId -> Driver Thread)
    cap fuel self fn frame upstream w :
  out_frame (execute drivers cap fuel self fn frame upstream w)
  = out_frame (think_loop cap (get_driver drivers self fn) fn upstream fuel 0 0%nat
                 w self (default (from_func fn) frame)
                 (initialize (get_driver drivers self fn) fn)).
Proof.
  unfold execute. cbv zeta.
  destruct (out_res _) as [result| |]; try reflexivity.
  destruct (negb (is_none result) && negb (isinstance_AIFuncResult result));
    reflexivity.
Qed.

(** C8 (amended): under a step bound [S >= 1], [execute] adds at most
    [S + 1] steps to the frame it works on (the step of the iteration that
    hits the limit is created before the check), so every sequence number is
    at most the number of steps the frame had on entry plus [S + 1]: at most
    [S + 1] for a frame [execute] creates, at most [S + 2] for a frame on
    which [run] took a step first.  This holds at every point of the loop. *)
Theorem execute_steps_bound {Thread : Type}
    (drivers : DriverId -> Driver Thread) (cap : RunCap) (self : Manager)
    (fn : AIFunc) (frame : option ExecFrame) (upstream : option Stream)
    (w : World) (fuel : nat) (S : Z) :
  1 <= S ->
  _max_step self = S ->
  keeps_max_step (get_driver drivers self fn) ->
  frame_wf (default (from_func fn) frame) ->
  Forall (fun s =>
            Z.of_nat (step_seq s)
            <= Z.of_nat (length (frame_steps (default (from_func fn) frame))) + S + 1)
    (frame_steps (out_frame (execute drivers cap fuel self fn frame upstream w))).
Proof.
  intros HS Hms Hkeep Hwf. rewrite execute_out_frame.
  pose proof (think_loop_wf cap (get_driver drivers self fn) fn upstream fuel 0
                0%nat w self _ (initialize (get_driver drivers self fn) fn) Hwf)
    as Hwf'.
  pose proof (think_loop_steps cap (get_driver drivers self fn) fn upstream S
                Hkeep HS fuel 0 0%nat w self (default (from_func fn) frame)
                (initialize (get_driver drivers self fn) fn) Hms) as Hlen.
  rewrite Z.sub_0_r in Hlen.
  apply Forall_lookup_2. intros i s Hi.
  rewrite (Hwf' i s Hi). apply lookup_lt_Some in Hi. lia.
Qed.

Lemma execute_steps_bound_witness :
  Forall (fun s => Z.of_nat (step_seq s) <= 0 + 3 + 1)
    (frame_steps
       (out_frame (execute example_drivers (engine example_drivers 0) 9
                     (root_manager 10 3) idle_task None None (mkWorld [])))).
Proof.
  apply (execute_steps_bound example_drivers (engine example_drivers 0)
           (root_manager 10 3) idle_task None None (mkWorld []) 9 3).
  - lia.
  - reflexivity.
  - exact idle_keeps_max_step.
  - apply from_func_wf.
Defined.

(** C8 as stated fails: with the bound 1 and a driver that never finishes,
    [execute] creates a second step for the frame before it raises. *)
Lemma execute_creates_step_beyond_bound :
  _max_step (root_manager 10 1) = 1 /\
  frame_steps
    (out_frame (execute example_drivers (engine example_drivers 0) 9
                  (root_manager 10 1) idle_task None None (mkWorld [])))
  = [mkStep 0 1; mkStep 0 2] /\
  1 < Z.of_nat (step_seq (mkStep 0 2)).
Proof. split; [reflexivity|]. split; [reflexivity|]. simpl. lia. Qed.

(** ** Nested launches *)

Lemma lookup_value_store m vals key v k :
  lookup_value (store m vals key v) k
  = if decide (key = k) then Some v else vals !! k.
Proof. unfold lookup_value, store. simpl. apply lookup_insert. Qed.

Lemma get_lookup_value m key v :
  lookup_value m key = Some v -> get m key = Return v.
Proof.
  unfold lookup_value, get. destruct (_values m) as [vals|]; [|discriminate].
  simpl. intros ->. reflexivity.
Qed.

(** What [run] comes to once the child is made, for a child that comes back
    from [execute] in working order on container [c]. *)
Lemma run_outcome {Thread : Type}
    (drivers : DriverId -> Driver Thread) (cap : RunCap) (fuel : nat)
    (self : Manager) (key : string) (fn : AIFunc) (w : World)
    (exec_step : option ExecStep) (upstream : option Stream)
    (vals : gmap string PyValue) (child : Manager) (c : ContainerId) :
  _exec_step self = Some exec_step ->
  _upstream self = Some upstream ->
  _values self = Some vals ->
  sub_manager self (launch_frame exec_step fn).2 None = Return child ->
  let out :=
    execute drivers cap fuel child fn (Some (launch_frame exec_step fn).1)
      upstream w in
  live (out_self out) ->
  _container (out_self out) = Some c ->
  run drivers cap fuel self key fn w
  = match out_res out with
    | Return result =>
        (container_destroy c (out_world out), store self vals key result,
         Return result)
    | Raise e => (container_destroy c (out_world out), self, Raise e)
    | OutOfFuel => (out_world out, self, OutOfFuel)
    end.
Proof.
  intros Hes Hup Hvals Hsub out Hlive Hc.
  destruct (destroy_live (out_self out) (out_world out) Hlive)
    as (c' & Hc' & Hdestroy).
  rewrite Hc in Hc'. injection Hc' as <-.
  unfold run. rewrite Hes.
  destruct (launch_frame exec_step fn) as [frame' sub_step] eqn:Hlf.
  simpl in Hsub. rewrite Hsub, Hup. simpl in out. fold out.
  destruct (out_res out) as [result| e |] eqn:Hres.
  - rewrite Hvals, Hdestroy. reflexivity.
  - rewrite Hdestroy. reflexivity.
  - reflexivity.
Qed.

(** Along unfinished iterations the loop only moves on. *)
Lemma think_loop_unfinished {Thread : Type} cap (d : Driver Thread) fn upstream
    n step s s' :
  unfinished d fn cap upstream n step s s' ->
  forall fuel thinks,
    think_loop cap d fn upstream (n + fuel) step thinks s.1.1.1 s.1.1.2 s.1.2 s.2
    = think_loop cap d fn upstream fuel (step + Z.of_nat n) (thinks + n)
        s'.1.1.1 s'.1.1.2 s'.1.2 s'.2.
Proof.
  induction 1 as [step s|n step w self frame thread w' self' thread' r s'
                          Hlim Hthink _ IH]; intros fuel thinks.
  - rewrite Z.add_0_r, Nat.add_0_r. reflexivity.
  - cbn [Nat.add think_loop fst snd]. unfold limit_hit in Hlim.
    unfold new_step in *. cbn [fst snd] in *. rewrite Hlim, Hthink.
    rewrite IH. cbn [fst snd]. f_equal; lia.
Qed.

(** How the loop ends after [n] unfinished iterations: on the step limit, on
    a [think] that finishes, or on a [think] that raises. *)
Lemma think_loop_ending {Thread : Type} cap (d : Driver Thread) fn upstream
    n w self frame thread w1 self1 frame1 thread1 fuel :
  unfinished d fn cap upstream n 0 (w, self, frame, thread)
    (w1, self1, frame1, thread1) ->
  (n < fuel)%nat ->
  (limit_hit self1 (Z.of_nat n + 1) = true ->
   think_loop cap d fn upstream fuel 0 0 w self frame thread
   = mkOut w1 self1 (new_step frame1).1 n
       (Raise (ExceededMaxStep (_max_step self1)))) /\
  (limit_hit self1 (Z.of_nat n + 1) = false ->
   forall w2 self2 thread2 v,
     think d fn cap self1 thread1 (new_step frame1).2 upstream w1
     = (w2, self2, Return (thread2, v, true)) ->
     think_loop cap d fn upstream fuel 0 0 w self frame thread
     = mkOut w2 self2 (new_step frame1).1 (S n) (Return v)) /\
  (limit_hit self1 (Z.of_nat n + 1) = false ->
   forall w2 self2 e,
     think d fn cap self1 thread1 (new_step frame1).2 upstream w1
     = (w2, self2, Raise e) ->
     think_loop cap d fn upstream fuel 0 0 w self frame thread
     = mkOut w2 self2 (new_step frame1).1 (S n) (Raise e)).
Proof.
  intros Hrun Hfuel.
  replace fuel with (n + S (fuel - S n))%nat by lia.
  pose proof (think_loop_unfinished cap d fn upstream n 0 _ _ Hrun
                (S (fuel - S n)) 0%nat) as Hloop.
  cbn [fst snd] in Hloop. rewrite Hloop. clear Hloop.
  cbn [think_loop]. unfold limit_hit, new_step. cbn [fst snd].
  rewrite Z.add_0_l, Nat.add_0_l.
  split; [|split].
  - intros ->. reflexivity.
  - intros -> w2 self2 thread2 v ->. reflexivity.
  - intros -> w2 self2 e ->. reflexivity.
Qed.

(** C7: [run] makes a frame one level below the step the manager is bound to
    (a root frame when it is bound to none) and a fresh child manager on the
    first step of that frame, and executes the task on the child to
    completion: after [n] unfinished iterations [execute] ends on the step
    limit, on the value of the [think] that finishes, checked, or on the
    exception of the [think] that raises.  When [execute] returns a result,
    [run] stores it under the key in the caller's own store, where [get] finds
    it; when [execute] raises, the caller is unchanged.  On both paths
    [destroy] then runs on the child as the driver left it, and [run] returns
    the result or raises the exception of [execute], unless [destroy] itself
    raises; on a child in working order [destroy] is one call on its
    container and returns. *)
Theorem run_launches_stores_and_destroys {Thread : Type}
    (drivers : DriverId -> Driver Thread) (cap : RunCap) (fuel : nat)
    (self : Manager) (key : string) (fn : AIFunc) (w : World)
    (exec_step : option ExecStep) (upstream : option Stream)
    (vals : gmap string PyValue) (child : Manager) :
  _exec_step self = Some exec_step ->
  _upstream self = Some upstream ->
  _values self = Some vals ->
  sub_manager self (launch_frame exec_step fn).2 None = Return child ->
  let frame := (launch_frame exec_step fn).1 in
  let d := get_driver drivers child fn in
  let out := execute drivers cap fuel child fn (Some frame) upstream w in
  let torn := destroy (out_self out) (out_world out) in
  (frame_depth frame
   = match exec_step with Some s => step_depth s + 1 | None => 0 end /\
   _exec_step child = Some (Some (mkStep (frame_depth frame) 1)) /\
   _values child = Some ∅ /\ live child) /\
  (forall n w1 child1 frame1 t1,
     unfinished d fn cap upstream n 0 (w, child, frame, initialize d fn)
       (w1, child1, frame1, t1) ->
     (n < fuel)%nat ->
     (limit_hit child1 (Z.of_nat n + 1) = true ->
      out = mkOut w1 child1 (new_step frame1).1 n
              (Raise (ExceededMaxStep (_max_step child1)))) /\
     (limit_hit child1 (Z.of_nat n + 1) = false ->
      forall w2 child2 t2 v,
        think d fn cap child1 t1 (new_step frame1).2 upstream w1
        = (w2, child2, Return (t2, v, true)) ->
        out = mkOut w2 child2 (new_step frame1).1 (S n)
                (if valid_result v then Return v
                 else Raise (InvalidResult (type_of v)
                               (get_aifunc_result_type fn)))) /\
     (limit_hit child1 (Z.of_nat n + 1) = false ->
      forall w2 child2 e,
        think d fn cap child1 t1 (new_step frame1).2 upstream w1
        = (w2, child2, Raise e) ->
        out = mkOut w2 child2 (new_step frame1).1 (S n) (Raise e))) /\
  match out_res out with
  | Return result =>
      (run drivers cap fuel self key fn w).1
      = (torn.1.1, store self vals key result) /\
      get (store self vals key result) key = Return result /\
      (run drivers cap fuel self key fn w).2
      = match torn.2 with
        | Return _ => Return result
        | Raise e => Raise e
        | OutOfFuel => OutOfFuel
        end
  | Raise e =>
      (run drivers cap fuel self key fn w).1 = (torn.1.1, self) /\
      (run drivers cap fuel self key fn w).2
      = match torn.2 with
        | Return _ => Raise e
        | Raise e' => Raise e'
        | OutOfFuel => OutOfFuel
        end
  | OutOfFuel =>
      run drivers cap fuel self key fn w = (out_world out, self, OutOfFuel)
  end /\
  (live (out_self out) ->
   exists c,
     _container (out_self out) = Some c /\
     torn.1.1 = container_destroy c (out_world out) /\
     torn.2 = Return tt).
Proof.
  intros Hes Hup Hvals Hsub frame d out torn.
  destruct (sub_manager_inv _ _ _ _ Hsub) as (c0 & Hc0 & Hchild).
  split; [|split; [|split]].
  - split; [destruct exec_step; reflexivity|].
    subst child. split; [destruct exec_step; reflexivity|].
    split; [reflexivity|]. solve_live.
  - intros n w1 child1 frame1 t1 Hrun Hfuel.
    destruct (think_loop_ending cap d fn upstream n w child frame
                (initialize d fn) w1 child1 frame1 t1 fuel Hrun Hfuel)
      as (Hlimit & Hfinish & Hraise).
    unfold out, execute. cbv zeta. fold d.
    change (default (from_func fn) (Some frame)) with frame.
    split; [|split].
    + intros Hhit. rewrite (Hlimit Hhit). reflexivity.
    + intros Hhit w2 child2 t2 v Hthink.
      rewrite (Hfinish Hhit w2 child2 t2 v Hthink).
      cbn [out_res out_world out_self out_frame out_thinks].
      unfold valid_result.
      destruct (is_none v), (isinstance_AIFuncResult v); reflexivity.
    + intros Hhit w2 child2 e Hthink.
      rewrite (Hraise Hhit w2 child2 e Hthink). reflexivity.
  - unfold run. rewrite Hes.
    destruct (launch_frame exec_step fn) as [frame' sub_step] eqn:Hlf.
    cbn [fst snd] in *. rewrite Hsub, Hup. subst frame. fold out.
    destruct (out_res out) as [result| e |] eqn:Hres.
    + rewrite Hvals. fold torn.
      destruct torn as [[w2 child2] [[]|e2|]]; cbn [fst snd].
      * split; [reflexivity|]. split; [|reflexivity].
        apply get_lookup_value. rewrite lookup_value_store.
        destruct (decide (key = key)); [reflexivity|congruence].
      * split; [reflexivity|]. split; [|reflexivity].
        apply get_lookup_value. rewrite lookup_value_store.
        destruct (decide (key = key)); [reflexivity|congruence].
      * split; [reflexivity|]. split; [|reflexivity].
        apply get_lookup_value. rewrite lookup_value_store.
        destruct (decide (key = key)); [reflexivity|congruence].
    + fold torn. destruct torn as [[w2 child2] [[]|e2|]]; split; reflexivity.
    + reflexivity.
  - intros Hlive.
    destruct (destroy_live (out_self out) (out_world out) Hlive)
      as (c & Hc & Hdestroy).
    exists c. split; [exact Hc|]. unfold torn. rewrite Hdestroy.
    split; reflexivity.
Qed.

Lemma run_launches_stores_and_destroys_witness :
  execute example_drivers (engine example_drivers 0) 3
    (mkManager (Some 7%nat) (Some (Some (mkStep 0 1))) (Some None) ""
       (Some ∅) 10 10 DefaultAIFuncDriverImpl false)
    oneshot_task (Some (mkFrame 0 [mkStep 0 1])) None (mkWorld [])
  = mkOut (mkWorld [])
      (mkManager (Some 7%nat) (Some (Some (mkStep 0 1))) (Some None) ""
         (Some ∅) 10 10 DefaultAIFuncDriverImpl false)
      (mkFrame 0 [mkStep 0 1; mkStep 0 2]) 1 (Return (PyResult "MyResult" 42)) /\
  (run example_drivers (engine example_drivers 0) 3 (root_manager 10 10)
     "answer" oneshot_task (mkWorld [])).1
  = (mkWorld [7%nat],
     store (root_manager 10 10) ∅ "answer" (PyResult "MyResult" 42)) /\
  get (store (root_manager 10 10) ∅ "answer" (PyResult "MyResult" 42)) "answer"
  = Return (PyResult "MyResult" 42) /\
  (run example_drivers (engine example_drivers 0) 3 (root_manager 10 10)
     "answer" oneshot_task (mkWorld [])).2
  = Return (PyResult "MyResult" 42).
Proof.
  destruct (run_launches_stores_and_destroys example_drivers
              (engine example_drivers 0) 3 (root_manager 10 10) "answer"
              oneshot_task (mkWorld []) None None ∅ _
              eq_refl eq_refl eq_refl eq_refl)
    as (_ & Hexec & Hrun & _).
  split; [|exact Hrun].
  refine (proj1 (proj2 (Hexec 0%nat _ _ _ _ (unfinished_O _ _ _ _ _ _) _))
            eq_refl _ _ 1%nat _ eq_refl).
  lia.
Defined.

(** ** Fan-out with a failing worker *)

Section FanOut.

Context {Thread : Type}.
Variable drivers : DriverId -> Driver Thread.
Variable cap : RunCap.
Variable fuel : nat.

(** [run] touches the caller's store at its key only, and only to put the
    result it returns there. *)
Lemma run_lookup self key fn w :
  (forall k, k <> key ->
     lookup_value (run drivers cap fuel self key fn w).1.2 k
     = lookup_value self k) /\
  (forall v, (run drivers cap fuel self key fn w).2 = Return v ->
     lookup_value (run drivers cap fuel self key fn w).1.2 key = Some v).
Proof.
  unfold run.
  destruct (_exec_step self) as [exec_step|]; [|split; [reflexivity|discriminate]].
  destruct (launch_frame exec_step fn) as [frame sub_step].
  destruct (sub_manager self sub_step None) as [child| |];
    [|split; [reflexivity|discriminate]..].
  destruct (_upstream self) as [upstream|].
  - destruct (out_res (execute drivers cap fuel child fn (Some frame) upstream w))
      as [result| |] eqn:Hres.
    + destruct (_values self) as [vals|] eqn:Hvals.
      * destruct (destroy _ _) as [[w' child'] [[]| |]]; simpl; split;
          try discriminate;
          try (intros k Hk; rewrite lookup_value_store;
               destruct (decide (key = k)); [congruence|];
               unfold lookup_value; rewrite Hvals; reflexivity).
        intros v [= ->]. rewrite lookup_value_store.
        destruct (decide (key = key)); [reflexivity|congruence].
      * destruct (destroy _ _) as [[w' child'] [[]| |]]; simpl; split;
          try discriminate; reflexivity.
    + destruct (destroy _ _) as [[w' child'] [[]| |]]; simpl; split;
        try discriminate; reflexivity.
    + simpl. split; [reflexivity|discriminate].
  - destruct (destroy _ _) as [[w' child'] [[]| |]]; simpl; split;
      try discriminate; reflexivity.
Qed.

Lemma run_workers_keys completion : forall self w,
  map fst (run_workers drivers cap fuel self completion w).2
  = map fst completion.
Proof.
  induction completion as [|[key fn] rest IH]; intros self w; [reflexivity|].
  simpl. destruct (run drivers cap fuel self key fn w) as [[w1 self1] r].
  specialize (IH self1 w1).
  destruct (run_workers drivers cap fuel self1 rest w1) as [[w2 self2] futures].
  simpl in *. f_equal. exact IH.
Qed.

(** Workers leave the keys of other workers alone. *)
Lemma run_workers_other completion : forall self w k,
  k ∉ map fst completion ->
  lookup_value (run_workers drivers cap fuel self completion w).1.2 k
  = lookup_value self k.
Proof.
  induction completion as [|[key fn] rest IH]; intros self w k Hk; [reflexivity|].
  simpl in *. apply not_elem_of_cons in Hk as [Hne Hk].
  pose proof (proj1 (run_lookup self key fn w) k Hne) as H1.
  destruct (run drivers cap fuel self key fn w) as [[w1 self1] r].
  specialize (IH self1 w1 k Hk).
  destruct (run_workers drivers cap fuel self1 rest w1) as [[w2 self2] futures].
  simpl in *. congruence.
Qed.

(** After all workers ran, every result a worker returned is in the
    caller's store under the key of that worker. *)
Lemma run_workers_stored completion : forall self w k v,
  NoDup (map fst completion) ->
  (k, Return v) ∈ (run_workers drivers cap fuel self completion w).2 ->
  lookup_value (run_workers drivers cap fuel self completion w).1.2 k = Some v.
Proof.
  induction completion as [|[key fn] rest IH]; intros self w k v Hnd Hin.
  - simpl in Hin. apply elem_of_nil in Hin. contradiction.
  - simpl in *. apply NoDup_cons in Hnd as [Hkey Hnd].
    pose proof (proj2 (run_lookup self key fn w)) as H1.
    pose proof (run_workers_other rest) as Hother.
    destruct (run drivers cap fuel self key fn w) as [[w1 self1] r].
    specialize (IH self1 w1 k v Hnd). specialize (Hother self1 w1 key Hkey).
    destruct (run_workers drivers cap fuel self1 rest w1) as [[w2 self2] futures].
    simpl in *. apply elem_of_cons in Hin as [[= -> <-]|Hin].
    + rewrite Hother. apply H1. reflexivity.
    + apply IH. exact Hin.
Qed.

End FanOut.

(** Taking the results in writes into the caller's store what is there
    already. *)
Lemma collect_lookup futures : forall results self,
  (forall k v, (k, Return v) ∈ futures -> lookup_value self k = Some v) ->
  forall k, lookup_value (collect futures results self).1 k = lookup_value self k.
Proof.
  induction futures as [|[key [result|e|]] rest IH]; intros results self Hok k;
    try reflexivity.
  simpl. pose proof (Hok key result (list_elem_of_here _ _)) as Hkey.
  unfold lookup_value in Hkey. destruct (_values self) as [vals|] eqn:Hvals;
    [|discriminate].
  assert (Hsame : forall k', lookup_value (store self vals key result) k'
                             = lookup_value self k').
  { intros k'. rewrite lookup_value_store. unfold lookup_value. rewrite Hvals.
    destruct (decide (key = k')) as [<-|]; congruence. }
  rewrite IH; [apply Hsame|].
  intros k' v' Hin. rewrite Hsame. apply Hok. apply list_elem_of_further, Hin.
Qed.




(** ** The recursion limit *)

Lemma sub_manager_within c es up name vals D ms dd des step up' :
  step_depth step <= D ->
  sub_manager (mkManager (Some c) es up name vals D ms dd des) step up'
  = Return (mkManager (Some c) (Some (Some step)) (Some up') name (Some ∅)
              D 10 dd false).
Proof.
  intros H. unfold sub_manager, init. cbn.
  destruct (Z.ltb_spec D (step_depth step)); [lia|reflexivity].
Qed.

Lemma sub_manager_too_deep c es up name vals D ms dd des step up' :
  D < step_depth step ->
  sub_manager (mkManager (Some c) es up name vals D ms dd des) step up'
  = Raise (DepthExceeded (step_depth step) D).
Proof.
  intros H. unfold sub_manager, init. cbn.
  destruct (Z.ltb_spec D (step_depth step)); [reflexivity|lia].
Qed.

(** A driver that finishes in its first [think] with a proper result makes
    [execute] take exactly one step and return that result. *)
Lemma execute_finishes_at_once {Thread : Type}
    (drivers : DriverId -> Driver Thread) cap fuel self fn frame upstream w
    w' self' t' result :
  _max_step self = 0 \/ 1 <= _max_step self ->
  think (get_driver drivers self fn) fn cap self
    (initialize (get_driver drivers self fn) fn)
    (new_step (default (from_func fn) frame)).2 upstream w
  = (w', self', Return (t', result, true)) ->
  isinstance_AIFuncResult result = true ->
  execute drivers cap (S fuel) self fn frame upstream w
  = mkOut w' self' (new_step (default (from_func fn) frame)).1 1 (Return result).
Proof.
  intros Hms Hthink Hres. unfold execute. cbv zeta. cbn [think_loop].
  destruct (new_step (default (from_func fn) frame)) as [frame' exec_step].
  simpl in Hthink.
  replace (negb (_max_step self =? 0) && (_max_step self <? 0 + 1)) with false
    by (symmetry; destruct Hms as [->|Hms]; [reflexivity|];
        apply andb_false_iff; right; lia).
  rewrite Hthink. cbn [out_res]. rewrite Hres, andb_false_r. reflexivity.
Qed.

(** An exception out of the first [think] is what [execute] raises. *)
Lemma execute_first_think_raises {Thread : Type}
    (drivers : DriverId -> Driver Thread) cap fuel self fn frame upstream w
    w' self' e :
  _max_step self = 0 \/ 1 <= _max_step self ->
  think (get_driver drivers self fn) fn cap self
    (initialize (get_driver drivers self fn) fn)
    (new_step (default (from_func fn) frame)).2 upstream w
  = (w', self', Raise e) ->
  execute drivers cap (S fuel) self fn frame upstream w
  = mkOut w' self' (new_step (default (from_func fn) frame)).1 1 (Raise e).
Proof.
  intros Hms Hthink. unfold execute. cbv zeta. cbn [think_loop].
  destruct (new_step (default (from_func fn) frame)) as [frame' exec_step].
  simpl in Hthink.
  replace (negb (_max_step self =? 0) && (_max_step self <? 0 + 1)) with false
    by (symmetry; destruct Hms as [->|Hms]; [reflexivity|];
        apply andb_false_iff; right; lia).
  rewrite Hthink. reflexivity.
Qed.

Lemma self_launch_think_leaf cap m t step upstream w :
  think self_launch_driver (self_launch_task 0) cap m t step upstream w
  = (w, m, Return (S t, PyResult "MyResult" 0, true)).
Proof. reflexivity. Qed.

Lemma self_launch_think_node n cap m t step upstream w :
  think self_launch_driver (self_launch_task (S n)) cap m t step upstream w
  = match sub_manager m step upstream with
    | Return ctx =>
        let '(w, _, r) := cap ctx "sub" (self_launch_task n) w in
        match r with
        | Return v => (w, m, Return (S t, v, true))
        | Raise e => (w, m, Raise e)
        | OutOfFuel => (w, m, OutOfFuel)
        end
    | Raise e => (w, m, Raise e)
    | OutOfFuel => (w, m, OutOfFuel)
    end.
Proof.
  unfold self_launch_driver, think, self_launch_task, _sub_manager_fn.
  cbn [aifunc_args aifunc_driver aifunc_result_type].
  replace (Z.of_nat (S n) <=? 0) with false by (symmetry; apply Z.leb_gt; lia).
  replace (Z.of_nat (S n) - 1) with (Z.of_nat n) by lia. reflexivity.
Qed.

Lemma execute_self_launch_leaf cap fuel self frame upstream w :
  _max_step self = 0 \/ 1 <= _max_step self ->
  execute example_drivers cap (S fuel) self (self_launch_task 0) frame upstream w
  = mkOut w self (new_step (default (from_func (self_launch_task 0)) frame)).1 1
      (Return (PyResult "MyResult" 0)).
Proof.
  intros Hms.
  apply (execute_finishes_at_once example_drivers cap fuel self
           (self_launch_task 0) frame upstream w w self 1%nat _ Hms);
    reflexivity.
Qed.

Lemma execute_self_launch_node n cap fuel self frame upstream w ctx w' ctx' r :
  _max_step self = 0 \/ 1 <= _max_step self ->
  sub_manager self
    (new_step (default (from_func (self_launch_task (S n))) frame)).2 upstream
  = Return ctx ->
  cap ctx "sub" (self_launch_task n) w = (w', ctx', r) ->
  match r with
  | Return v =>
      isinstance_AIFuncResult v = true ->
      execute example_drivers cap (S fuel) self (self_launch_task (S n)) frame
        upstream w
      = mkOut w' self
          (new_step (default (from_func (self_launch_task (S n))) frame)).1 1
          (Return v)
  | Raise e =>
      execute example_drivers cap (S fuel) self (self_launch_task (S n)) frame
        upstream w
      = mkOut w' self
          (new_step (default (from_func (self_launch_task (S n))) frame)).1 1
          (Raise e)
  | OutOfFuel => True
  end.
Proof.
  intros Hms Hsub Hcap.
  assert (Hthink :
    think (get_driver example_drivers self (self_launch_task (S n)))
      (self_launch_task (S n)) cap self
      (initialize (get_driver example_drivers self (self_launch_task (S n)))
         (self_launch_task (S n)))
      (new_step (default (from_func (self_launch_task (S n))) frame)).2
      upstream w
    = match r with
      | Return v => (w', self, Return (1%nat, v, true))
      | Raise e => (w', self, Raise e)
      | OutOfFuel => (w', self, OutOfFuel)
      end).
  { change (get_driver example_drivers self (self_launch_task (S n)))
      with self_launch_driver.
    rewrite self_launch_think_node, Hsub, Hcap. reflexivity. }
  destruct r as [v|e|]; [|..|exact I].
  - intros Hv.
    exact (execute_finishes_at_once example_drivers cap fuel self
             (self_launch_task (S n)) frame upstream w w' self 1%nat v Hms
             Hthink Hv).
  - exact (execute_first_think_raises example_drivers cap fuel self
             (self_launch_task (S n)) frame upstream w w' self e Hms Hthink).
Qed.

Lemma container_destroy_repeat c w n :
  container_destroy c (mkWorld (destroy_calls w ++ repeat c n))
  = mkWorld (destroy_calls w ++ repeat c (S n)).
Proof.
  unfold container_destroy. cbn [destroy_calls].
  rewrite <- app_assoc, <- repeat_cons. reflexivity.
Qed.

(** A launch of the self-launching task with [n] launches still to come, from
    a context bound to a step at depth [d <= D]: all [n + 1] launches succeed
    when the deepest frame stays within [D]; otherwise the launches down to
    depth [D] succeed and the next one, for depth [D + 1], raises.  Every
    child that was made has been destroyed when the call is over. *)
Lemma engine_self_launch (D : Z) (c : ContainerId) (name : string)
    (dd : DriverId) :
  forall (n fuel : nat) step up vals ms key w,
    (n < fuel)%nat ->
    step_depth step <= D ->
    let ctx := mkManager (Some c) (Some (Some step)) (Some up) name (Some vals)
                 D ms dd false in
    (step_depth step + 1 + Z.of_nat n <= D ->
     engine example_drivers fuel ctx key (self_launch_task n) w
     = (mkWorld (destroy_calls w ++ repeat c (S n)),
        store ctx vals key (PyResult "MyResult" 0),
        Return (PyResult "MyResult" 0))) /\
    (D < step_depth step + 1 + Z.of_nat n ->
     engine example_drivers fuel ctx key (self_launch_task n) w
     = (mkWorld (destroy_calls w
                 ++ repeat c (Z.to_nat (D - step_depth step))),
        ctx, Raise (DepthExceeded (D + 1) D))).
Proof.
  induction n as [|n IH]; intros fuel step up vals ms key w Hfuel Hd ctx;
    (destruct fuel as [|fuel]; [lia|]); cbn [engine].
  - (* no launch below this one *)
    split; intros Hcase.
    + pose proof (sub_manager_within c (Some (Some step)) (Some up) name
                    (Some vals) D ms dd false
                    (launch_frame (Some step) (self_launch_task 0)).2 None)
        as Hsub.
      rewrite (run_outcome example_drivers (engine example_drivers fuel)
                 (S fuel) ctx key (self_launch_task 0) w (Some step) up vals
                 _ c eq_refl eq_refl eq_refl (Hsub ltac:(simpl; lia)));
        rewrite execute_self_launch_leaf by (right; simpl; lia).
      * cbn [out_res out_world].
        rewrite <- (container_destroy_repeat c w 0), app_nil_r.
        destruct w; reflexivity.
      * solve_live.
      * reflexivity.
    + assert (step_depth step = D) as HD by lia.
      unfold run. cbn [_exec_step ctx].
      unfold launch_frame. cbn [new_step new_frame frame_depth frame_steps].
      unfold ctx. rewrite sub_manager_too_deep by (simpl; lia).
      cbn [step_depth]. rewrite HD, Z.sub_diag. cbn [Z.to_nat repeat].
      rewrite app_nil_r. destruct w; reflexivity.
  - (* one more launch below this one *)
    split; intros Hcase.
    + pose proof (sub_manager_within c (Some (Some step)) (Some up) name
                    (Some vals) D ms dd false
                    (launch_frame (Some step) (self_launch_task (S n))).2 None
                    ltac:(simpl; lia)) as Hsub.
      set (frame := (launch_frame (Some step) (self_launch_task (S n))).1).
      set (child := mkManager (Some c)
                      (Some (Some (launch_frame (Some step)
                                     (self_launch_task (S n))).2))
                      (Some None) name (Some ∅) D 10 dd false) in *.
      set (exec_step := (new_step frame).2).
      assert (Hms : _max_step child = 0 \/ 1 <= _max_step child)
        by (right; unfold child; simpl; lia).
      pose proof (sub_manager_within c
                    (Some (Some (launch_frame (Some step)
                                   (self_launch_task (S n))).2))
                    (Some None) name (Some ∅) D 10 dd false exec_step up
                    ltac:(simpl; lia)) as Hctx. fold child in Hctx.
      destruct (IH fuel exec_step up ∅ 10 "sub" w ltac:(lia) ltac:(simpl; lia))
        as [Hok _]. specialize (Hok ltac:(simpl; lia)).
      pose proof (execute_self_launch_node n (engine example_drivers fuel) fuel
                    child (Some frame) up w _ _ _ _ Hms Hctx Hok eq_refl)
        as Hexec.
      rewrite (run_outcome example_drivers (engine example_drivers fuel)
                 (S fuel) ctx key (self_launch_task (S n)) w (Some step) up vals
                 child c eq_refl eq_refl eq_refl Hsub);
        fold frame; rewrite Hexec.
      * cbn [out_res out_world]. rewrite container_destroy_repeat. reflexivity.
      * solve_live.
      * reflexivity.
    + destruct (Z.eq_dec (step_depth step) D) as [HD|HD].
      * unfold run. cbn [_exec_step ctx].
        unfold launch_frame. cbn [new_step new_frame frame_depth frame_steps].
        unfold ctx. rewrite sub_manager_too_deep by (simpl; lia).
        cbn [step_depth]. rewrite HD, Z.sub_diag. cbn [Z.to_nat repeat].
        rewrite app_nil_r. destruct w; reflexivity.
      * pose proof (sub_manager_within c (Some (Some step)) (Some up) name
                      (Some vals) D ms dd false
                      (launch_frame (Some step) (self_launch_task (S n))).2 None
                      ltac:(simpl; lia)) as Hsub.
        set (frame := (launch_frame (Some step) (self_launch_task (S n))).1).
        set (child := mkManager (Some c)
                        (Some (Some (launch_frame (Some step)
                                       (self_launch_task (S n))).2))
                        (Some None) name (Some ∅) D 10 dd false) in *.
        set (exec_step := (new_step frame).2).
        assert (Hms : _max_step child = 0 \/ 1 <= _max_step child)
          by (right; unfold child; simpl; lia).
        pose proof (sub_manager_within c
                      (Some (Some (launch_frame (Some step)
                                     (self_launch_task (S n))).2))
                      (Some None) name (Some ∅) D 10 dd false exec_step up
                      ltac:(simpl; lia)) as Hctx. fold child in Hctx.
        destruct (IH fuel exec_step up ∅ 10 "sub" w ltac:(lia)
                    ltac:(simpl; lia)) as [_ Hko].
        specialize (Hko ltac:(simpl; lia)).
        pose proof (execute_self_launch_node n (engine example_drivers fuel)
                      fuel child (Some frame) up w _ _ _ _ Hms Hctx Hko)
          as Hexec.
        cbv beta iota in Hexec.
        rewrite (run_outcome example_drivers (engine example_drivers fuel)
                   (S fuel) ctx key (self_launch_task (S n)) w (Some step) up
                   vals child c eq_refl eq_refl eq_refl Hsub);
          fold frame; rewrite Hexec.
        -- cbn [out_res out_world]. rewrite container_destroy_repeat.
           replace (Z.to_nat (D - step_depth step))
             with (S (Z.to_nat (D - step_depth exec_step)))
             by (simpl; lia).
           reflexivity.
        -- solve_live.
        -- reflexivity.
Qed.

(** The task that launches itself through the context bound to its step,
    executed on a root manager: the k-th nested launch makes a frame at depth
    k, so [n <= D] launches succeed and launch [D + 1] raises. *)
Lemma self_launch_through_context (D M : Z) (n fuel : nat) (c : ContainerId)
    (up upstream : option Stream) (dd : option DriverId) (name : string)
    (root : Manager) :
  0 <= D ->
  0 <= M ->
  init c None up dd name D M = Return root ->
  (n < fuel)%nat ->
  let out :=
    execute example_drivers (engine example_drivers fuel) fuel root
      (self_launch_task n) None upstream (mkWorld []) in
  (Z.of_nat n <= D ->
   out_res out = Return (PyResult "MyResult" 0) /\
   destroy_calls (out_world out) = repeat c n) /\
  (D < Z.of_nat n ->
   out_res out = Raise (DepthExceeded (D + 1) D) /\
   destroy_calls (out_world out) = repeat c (Z.to_nat D)).
Proof.
  intros HD HM Hinit Hfuel. apply init_inv in Hinit. subst root.
  destruct fuel as [|fuel]; [lia|].
  set (root := mkManager _ _ _ _ _ _ _ _ _).
  assert (Hms : _max_step root = 0 \/ 1 <= _max_step root)
    by (unfold root; simpl; lia).
  destruct n as [|n]; cbv zeta.
  - rewrite execute_self_launch_leaf by exact Hms.
    split; [intros _; split; reflexivity | lia].
  - set (exec_step := (new_step (default (from_func (self_launch_task (S n)))
                                   None)).2).
    pose proof (sub_manager_within c (Some None) (Some up) name (Some ∅) D M
                  (default DefaultAIFuncDriverImpl dd) false exec_step upstream
                  ltac:(simpl; lia)) as Hctx. fold root in Hctx.
    destruct (engine_self_launch D c name (default DefaultAIFuncDriverImpl dd)
                n (Datatypes.S fuel) exec_step upstream ∅ 10 "sub" (mkWorld [])
                ltac:(lia) ltac:(simpl; lia)) as [Hok Hko].
    split; intros Hcase.
    + specialize (Hok ltac:(simpl; lia)).
      rewrite (execute_self_launch_node n _ fuel root None upstream (mkWorld [])
                 _ _ _ _ Hms Hctx Hok eq_refl).
      split; reflexivity.
    + specialize (Hko ltac:(simpl; lia)).
      pose proof (execute_self_launch_node n _ fuel root None upstream
                    (mkWorld []) _ _ _ _ Hms Hctx Hko) as Hexec.
      cbv beta iota in Hexec. rewrite Hexec.
      split; [reflexivity|]. simpl. rewrite Z.sub_0_r. reflexivity.
Qed.

Lemma launch_step_depth es fn :
  step_depth (launch_frame es fn).2
  = match es with Some s => step_depth s + 1 | None => 0 end.
Proof. destruct es; reflexivity. Qed.

Lemma self_run_think_node n cap m t step upstream w :
  think self_run_driver (self_run_task (S n)) cap m t step upstream w
  = let '(w, m, r) := cap m "sub" (self_run_task n) w in
    match r with
    | Return v => (w, m, Return (S t, v, true))
    | Raise e => (w, m, Raise e)
    | OutOfFuel => (w, m, OutOfFuel)
    end.
Proof.
  unfold self_run_driver, think, self_run_task, context.
  cbn [aifunc_args aifunc_driver aifunc_result_type].
  replace (Z.of_nat (S n) <=? 0) with false by (symmetry; apply Z.leb_gt; lia).
  replace (Z.of_nat (S n) - 1) with (Z.of_nat n) by lia. reflexivity.
Qed.

Lemma execute_self_run_leaf cap fuel self frame upstream w :
  _max_step self = 0 \/ 1 <= _max_step self ->
  execute more_drivers cap (S fuel) self (self_run_task 0) frame upstream w
  = mkOut w self (new_step (default (from_func (self_run_task 0)) frame)).1 1
      (Return (PyResult "MyResult" 0)).
Proof.
  intros Hms.
  apply (execute_finishes_at_once more_drivers cap fuel self
           (self_run_task 0) frame upstream w w self 1%nat _ Hms);
    reflexivity.
Qed.

Lemma execute_self_run_node n cap fuel self frame upstream w w' self' r :
  _max_step self = 0 \/ 1 <= _max_step self ->
  cap self "sub" (self_run_task n) w = (w', self', r) ->
  match r with
  | Return v =>
      isinstance_AIFuncResult v = true ->
      execute more_drivers cap (S fuel) self (self_run_task (S n)) frame
        upstream w
      = mkOut w' self'
          (new_step (default (from_func (self_run_task (S n))) frame)).1 1
          (Return v)
  | Raise e =>
      execute more_drivers cap (S fuel) self (self_run_task (S n)) frame
        upstream w
      = mkOut w' self'
          (new_step (default (from_func (self_run_task (S n))) frame)).1 1
          (Raise e)
  | OutOfFuel => True
  end.
Proof.
  intros Hms Hcap.
  assert (Hthink :
    think (get_driver more_drivers self (self_run_task (S n)))
      (self_run_task (S n)) cap self
      (initialize (get_driver more_drivers self (self_run_task (S n)))
         (self_run_task (S n)))
      (new_step (default (from_func (self_run_task (S n))) frame)).2
      upstream w
    = match r with
      | Return v => (w', self', Return (1%nat, v, true))
      | Raise e => (w', self', Raise e)
      | OutOfFuel => (w', self', OutOfFuel)
      end).
  { change (get_driver more_drivers self (self_run_task (S n)))
      with self_run_driver.
    rewrite self_run_think_node, Hcap. reflexivity. }
  destruct r as [v|e|]; [|..|exact I].
  - intros Hv.
    exact (execute_finishes_at_once more_drivers cap fuel self
             (self_run_task (S n)) frame upstream w w' self' 1%nat v Hms
             Hthink Hv).
  - exact (execute_first_think_raises more_drivers cap fuel self
             (self_run_task (S n)) frame upstream w w' self' e Hms Hthink).
Qed.

(** A launch of the task that launches itself through the manager it is
    handed, with [n] launches still to come, on a manager whose launches make
    frames at depth [ld <= D + 1]: all [n + 1] launches succeed when the
    deepest frame stays within [D]; otherwise the launches down to depth [D]
    succeed and the next one, for depth [D + 1], raises. *)
Lemma engine_self_run (D : Z) (c : ContainerId) (name : string) (dd : DriverId) :
  forall (n fuel : nat) es up vals ms key w,
    (n < fuel)%nat ->
    match es with Some s => step_depth s + 1 | None => 0 end <= D + 1 ->
    let m := mkManager (Some c) (Some es) (Some up) name (Some vals) D ms dd
               false in
    (match es with Some s => step_depth s + 1 | None => 0 end + Z.of_nat n <= D ->
     engine more_drivers fuel m key (self_run_task n) w
     = (mkWorld (destroy_calls w ++ repeat c (S n)),
        store m vals key (PyResult "MyResult" 0),
        Return (PyResult "MyResult" 0))) /\
    (D < match es with Some s => step_depth s + 1 | None => 0 end + Z.of_nat n ->
     engine more_drivers fuel m key (self_run_task n) w
     = (mkWorld (destroy_calls w
                 ++ repeat c (Z.to_nat
                      (D + 1 - match es with
                               | Some s => step_depth s + 1
                               | None => 0
                               end))),
        m, Raise (DepthExceeded (D + 1) D))).
Proof.
  induction n as [|n IH]; intros fuel es up vals ms key w Hfuel Hld m;
    (destruct fuel as [|fuel]; [lia|]); cbn [engine];
    set (ld := match es with Some s => step_depth s + 1 | None => 0 end) in *.
  - split; intros Hcase.
    + pose proof (sub_manager_within c (Some es) (Some up) name (Some vals) D
                    ms dd false (launch_frame es (self_run_task 0)).2 None
                    ltac:(rewrite launch_step_depth; fold ld; lia)) as Hsub.
      rewrite (run_outcome more_drivers (engine more_drivers fuel) (S fuel) m
                 key (self_run_task 0) w es up vals _ c eq_refl eq_refl eq_refl
                 Hsub);
        rewrite execute_self_run_leaf by (right; simpl; lia).
      * cbn [out_res out_world].
        rewrite <- (container_destroy_repeat c w 0), app_nil_r.
        destruct w; reflexivity.
      * solve_live.
      * reflexivity.
    + assert (ld = D + 1) as HD by lia.
      unfold run. cbn [_exec_step m].
      destruct (launch_frame es (self_run_task 0)) as [frame sub_step] eqn:Hlf.
      pose proof (launch_step_depth es (self_run_task 0)) as Hdepth.
      rewrite Hlf in Hdepth. cbn [snd] in Hdepth. fold ld in Hdepth.
      unfold m. rewrite sub_manager_too_deep by lia.
      rewrite Hdepth, HD, Z.sub_diag. cbn [Z.to_nat repeat].
      rewrite app_nil_r. destruct w; reflexivity.
  - split; intros Hcase.
    + pose proof (sub_manager_within c (Some es) (Some up) name (Some vals) D
                    ms dd false (launch_frame es (self_run_task (S n))).2 None
                    ltac:(rewrite launch_step_depth; fold ld; lia)) as Hsub.
      set (sub_step := (launch_frame es (self_run_task (S n))).2) in *.
      assert (Hss : step_depth sub_step = ld)
        by (unfold sub_step; rewrite launch_step_depth; reflexivity).
      set (frame := (launch_frame es (self_run_task (S n))).1).
      set (child := mkManager (Some c) (Some (Some sub_step)) (Some None) name
                      (Some ∅) D 10 dd false) in *.
      assert (Hms : _max_step child = 0 \/ 1 <= _max_step child)
        by (right; unfold child; simpl; lia).
      destruct (IH fuel (Some sub_step) None ∅ 10 "sub" w ltac:(lia)
                  ltac:(cbv beta iota; rewrite Hss; lia)) as [Hok _].
      specialize (Hok ltac:(cbv beta iota; rewrite Hss; lia)). fold child in Hok.
      pose proof (execute_self_run_node n (engine more_drivers fuel) fuel
                    child (Some frame) up w _ _ _ Hms Hok eq_refl) as Hexec.
      rewrite (run_outcome more_drivers (engine more_drivers fuel) (S fuel) m
                 key (self_run_task (S n)) w es up vals child c eq_refl eq_refl
                 eq_refl Hsub);
        fold frame; rewrite Hexec.
      * cbn [out_res out_world]. rewrite container_destroy_repeat. reflexivity.
      * unfold child. solve_live.
      * reflexivity.
    + destruct (Z.eq_dec ld (D + 1)) as [HD|HD].
      * unfold run. cbn [_exec_step m].
        destruct (launch_frame es (self_run_task (S n)))
          as [frame sub_step] eqn:Hlf.
        pose proof (launch_step_depth es (self_run_task (S n))) as Hdepth.
        rewrite Hlf in Hdepth. cbn [snd] in Hdepth. fold ld in Hdepth.
        unfold m. rewrite sub_manager_too_deep by lia.
        rewrite Hdepth, HD, Z.sub_diag. cbn [Z.to_nat repeat].
        rewrite app_nil_r. destruct w; reflexivity.
      * pose proof (sub_manager_within c (Some es) (Some up) name (Some vals)
                      D ms dd false
                      (launch_frame es (self_run_task (S n))).2 None
                      ltac:(rewrite launch_step_depth; fold ld; lia)) as Hsub.
        set (sub_step := (launch_frame es (self_run_task (S n))).2) in *.
        assert (Hss : step_depth sub_step = ld)
          by (unfold sub_step; rewrite launch_step_depth; reflexivity).
        set (frame := (launch_frame es (self_run_task (S n))).1).
        set (child := mkManager (Some c) (Some (Some sub_step)) (Some None)
                        name (Some ∅) D 10 dd false) in *.
        assert (Hms : _max_step child = 0 \/ 1 <= _max_step child)
          by (right; unfold child; simpl; lia).
        destruct (IH fuel (Some sub_step) None ∅ 10 "sub" w ltac:(lia)
                    ltac:(cbv beta iota; rewrite Hss; lia)) as [_ Hko].
        specialize (Hko ltac:(cbv beta iota; rewrite Hss; lia)). fold child in Hko.
        pose proof (execute_self_run_node n (engine more_drivers fuel) fuel
                      child (Some frame) up w _ _ _ Hms Hko) as Hexec.
        cbv beta iota in Hexec.
        rewrite (run_outcome more_drivers (engine more_drivers fuel) (S fuel)
                   m key (self_run_task (S n)) w es up vals child c eq_refl
                   eq_refl eq_refl Hsub);
          fold frame; rewrite Hexec.
        -- cbn [out_res out_world]. rewrite container_destroy_repeat.
           rewrite Hss.
           replace (Z.to_nat (D + 1 - ld))
             with (S (Z.to_nat (D + 1 - (ld + 1)))) by lia.
           reflexivity.
        -- unfold child. solve_live.
        -- reflexivity.
Qed.


(** The task that launches itself through [run] on the manager its driver is
    handed, executed on a root manager bound to no step: the first nested
    launch makes a root frame, the k-th a frame at depth k - 1, so
    [n <= D + 1] launches succeed and launch [D + 2] raises. *)
Lemma self_launch_through_manager (D M : Z) (n fuel : nat) (c : ContainerId)
    (up upstream : option Stream) (dd : option DriverId) (name : string)
    (root : Manager) :
  0 <= D ->
  0 <= M ->
  init c None up dd name D M = Return root ->
  (n < fuel)%nat ->
  let out :=
    execute more_drivers (engine more_drivers fuel) fuel root
      (self_run_task n) None upstream (mkWorld []) in
  (Z.of_nat n <= D + 1 ->
   out_res out = Return (PyResult "MyResult" 0) /\
   destroy_calls (out_world out) = repeat c n) /\
  (D + 1 < Z.of_nat n ->
   out_res out = Raise (DepthExceeded (D + 1) D) /\
   destroy_calls (out_world out) = repeat c (Z.to_nat (D + 1))).
Proof.
  intros HD HM Hinit Hfuel. apply init_inv in Hinit. subst root.
  destruct fuel as [|fuel]; [lia|].
  set (root := mkManager _ _ _ _ _ _ _ _ _).
  assert (Hms : _max_step root = 0 \/ 1 <= _max_step root)
    by (unfold root; simpl; lia).
  destruct n as [|n]; cbv zeta.
  - rewrite execute_self_run_leaf by exact Hms.
    split; [intros _; split; reflexivity | lia].
  - destruct (engine_self_run D c name (default DefaultAIFuncDriverImpl dd)
                n (Datatypes.S fuel) None up ∅ M "sub" (mkWorld [])
                ltac:(lia) ltac:(cbv beta iota; lia)) as [Hok Hko].
    cbv beta iota zeta in Hok, Hko. fold root in Hok, Hko.
    split; intros Hcase.
    + specialize (Hok ltac:(lia)).
      rewrite (execute_self_run_node n _ fuel root None upstream (mkWorld [])
                 _ _ _ Hms Hok eq_refl).
      split; reflexivity.
    + specialize (Hko ltac:(lia)).
      pose proof (execute_self_run_node n _ fuel root None upstream
                    (mkWorld []) _ _ _ Hms Hko) as Hexec.
      cbv beta iota in Hexec. rewrite Hexec.
      split; [reflexivity|]. simpl. rewrite Z.sub_0_r. reflexivity.
Qed.

(** C5 (amended): a nested launch raises the recursion-limit error when its
    frame would lie deeper than [D >= 0], and where the count of launches
    reaches that depth depends on the manager the task launches through.  A
    task executed on a root manager that launches itself through the context
    bound to its step succeeds with [n <= D] nested launches and fails
    exactly on launch [D + 1].  A task that launches itself through [run] on
    the manager its driver is handed has its first nested frame at depth 0: it
    succeeds with [n <= D + 1] nested launches and fails exactly on launch
    [D + 2].  In both cases the error reports depth [D + 1], and every child
    made before has been destroyed. *)
Theorem self_launch_recursion_limit (D M : Z) (n fuel : nat) (c : ContainerId)
    (up upstream : option Stream) (dd : option DriverId) (name : string)
    (root : Manager) :
  0 <= D ->
  0 <= M ->
  init c None up dd name D M = Return root ->
  (n < fuel)%nat ->
  let via_context :=
    execute example_drivers (engine example_drivers fuel) fuel root
      (self_launch_task n) None upstream (mkWorld []) in
  let via_manager :=
    execute more_drivers (engine more_drivers fuel) fuel root
      (self_run_task n) None upstream (mkWorld []) in
  ((Z.of_nat n <= D ->
    out_res via_context = Return (PyResult "MyResult" 0) /\
    destroy_calls (out_world via_context) = repeat c n) /\
   (D < Z.of_nat n ->
    out_res via_context = Raise (DepthExceeded (D + 1) D) /\
    destroy_calls (out_world via_context) = repeat c (Z.to_nat D))) /\
  ((Z.of_nat n <= D + 1 ->
    out_res via_manager = Return (PyResult "MyResult" 0) /\
    destroy_calls (out_world via_manager) = repeat c n) /\
   (D + 1 < Z.of_nat n ->
    out_res via_manager = Raise (DepthExceeded (D + 1) D) /\
    destroy_calls (out_world via_manager) = repeat c (Z.to_nat (D + 1)))).
Proof.
  intros HD HM Hinit Hfuel. split.
  - exact (self_launch_through_context D M n fuel c up upstream dd name root
             HD HM Hinit Hfuel).
  - exact (self_launch_through_manager D M n fuel c up upstream dd name root
             HD HM Hinit Hfuel).
Qed.

Lemma self_launch_recursion_limit_witness :
  (out_res (execute example_drivers (engine example_drivers 5) 5
              (root_manager 2 10) (self_launch_task 3) None None (mkWorld []))
   = Raise (DepthExceeded 3 2) /\
   destroy_calls
     (out_world (execute example_drivers (engine example_drivers 5) 5
                   (root_manager 2 10) (self_launch_task 3) None None
                   (mkWorld [])))
   = [7%nat; 7%nat]) /\
  (out_res (execute more_drivers (engine more_drivers 5) 5
              (root_manager 2 10) (self_run_task 3) None None (mkWorld []))
   = Return (PyResult "MyResult" 0) /\
   destroy_calls
     (out_world (execute more_drivers (engine more_drivers 5) 5
                   (root_manager 2 10) (self_run_task 3) None None
                   (mkWorld [])))
   = [7%nat; 7%nat; 7%nat]).
Proof.
  destruct (self_launch_recursion_limit 2 10 3 5 7%nat None None None ""
              (root_manager 2 10)) as [[_ Hctx] [Hmgr _]];
    [lia | lia | reflexivity | lia |].
  split; [apply Hctx; simpl; lia | apply Hmgr; simpl; lia].
Defined.

(** C5 as stated fails: with maximal depth 0, a task that launches itself
    once through [run] on the manager its driver is handed succeeds, its
    nested frame being a root frame at depth 0. *)
Lemma self_launch_first_frame_at_depth_zero :
  _max_depth (root_manager 0 10) = 0 /\
  out_res (execute more_drivers (engine more_drivers 5) 5 (root_manager 0 10)
             (self_run_task 1) None None (mkWorld []))
  = Return (PyResult "MyResult" 0) /\
  destroy_calls
    (out_world (execute more_drivers (engine more_drivers 5) 5
                  (root_manager 0 10) (self_run_task 1) None None (mkWorld [])))
  = [7%nat].
Proof. repeat split. Qed.

(** ** The engine on small inputs *)

(** Both workers succeed: the returned mapping holds both results and [get]
    finds both in the caller's store, in either completion order. *)
Example parallel_run_both_succeed :
  forall completion,
    completion = [("a", oneshot_task); ("b", mkAIFunc None "MyResult" 7)] \/
    completion = [("b", mkAIFunc None "MyResult" 7); ("a", oneshot_task)] ->
    let '(w, self, r) :=
      parallel_run example_drivers (engine example_drivers 0) 3
        (root_manager 10 10) completion (mkWorld []) in
    r = Return (<["a" := PyResult "MyResult" 42]>
                  (<["b" := PyResult "MyResult" 7]> ∅)) /\
    get self "a" = Return (PyResult "MyResult" 42) /\
    get self "b" = Return (PyResult "MyResult" 7) /\
    destroy_calls w = [7%nat; 7%nat].
Proof.
  intros completion [-> | ->]; vm_compute; repeat split.
Qed.

(** An empty mapping is refused by the executor. *)
Example parallel_run_empty :
  parallel_run example_drivers (engine example_drivers 0) 3
    (root_manager 10 10) [] (mkWorld [])
  = (mkWorld [], root_manager 10 10,
     Raise (ValueError "max_workers must be greater than 0")).
Proof. reflexivity. Qed.

(** A worker that is launched on a destroyed manager fails on the deleted
    [_exec_step] attribute before any child is made. *)
Example run_on_destroyed_manager :
  let '(w, m, _) := destroy (root_manager 10 10) (mkWorld []) in
  (run example_drivers (engine example_drivers 0) 3 m "k" oneshot_task w).2
  = Raise (AttributeError "_exec_step").
Proof. reflexivity. Qed.

(** * Further properties of the manager *)

(** ** The key/value store *)

(** X1: [set] then [get]: on a manager whose store is in place, [set] succeeds,
    [get] of the key returns the value just set, also when the key held
    another value before, and every other key reads as before. *)
Theorem set_then_get (self : Manager) (vals : gmap string PyValue)
    (key k : string) (old value : PyValue) :
  _values self = Some vals ->
  (set self key value).2 = Return tt /\
  get (set self key value).1 key = Return value /\
  get (set (set self key old).1 key value).1 key = Return value /\
  (k <> key -> get (set self key value).1 k = get self k).
Proof.
  intros Hvals. unfold set. rewrite Hvals. cbn [fst snd].
  split; [reflexivity|]. split; [|split].
  - apply get_lookup_value. rewrite lookup_value_store.
    destruct (decide (key = key)); [reflexivity|congruence].
  - cbn [store _values fst]. apply get_lookup_value.
    rewrite lookup_value_store.
    destruct (decide (key = key)); [reflexivity|congruence].
  - intros Hk. unfold get, store. cbn [_values]. rewrite Hvals.
    cbn [getattr bind]. rewrite lookup_insert_ne by congruence. reflexivity.
Qed.

Lemma set_then_get_witness :
  get (set (set (root_manager 10 10) "a" PyNone).1 "a" (PyObject "int" 3)).1 "a"
  = Return (PyObject "int" 3) /\
  get (set (root_manager 10 10) "a" (PyObject "int" 3)).1 "b" = Return PyNone.
Proof.
  destruct (set_then_get (root_manager 10 10) ∅ "a" "b" PyNone
              (PyObject "int" 3) eq_refl) as (_ & _ & H3 & H4).
  split; [exact H3|]. rewrite H4; [reflexivity|discriminate].
Defined.

(** X2: A child manager starts on an empty store of its own: whatever the parent
    holds, [get] on the child returns [None] for every key. *)
Theorem sub_manager_store_is_fresh (self : Manager) (step : ExecStep)
    (upstream : option Stream) (child : Manager) (key : string) :
  sub_manager self step upstream = Return child ->
  get child key = Return PyNone /\ values child = Return ∅.
Proof.
  intros Hsub. destruct (sub_manager_inv _ _ _ _ Hsub) as (c & _ & ->).
  split; reflexivity.
Qed.

Lemma sub_manager_store_is_fresh_witness :
  get (set (root_manager 10 10) "a" (PyObject "int" 3)).1 "a"
  = Return (PyObject "int" 3) /\
  exists child,
    sub_manager (set (root_manager 10 10) "a" (PyObject "int" 3)).1
      (mkStep 0 1) None = Return child /\
    get child "a" = Return PyNone.
Proof.
  split; [reflexivity|]. eexists. split; [reflexivity|].
  exact (proj1 (sub_manager_store_is_fresh
                  (set (root_manager 10 10) "a" (PyObject "int" 3)).1
                  (mkStep 0 1) None _ "a" eq_refl)).
Defined.

(** ** After teardown *)

(** X3: Once [destroy] has run on a manager in working order, every context-side
    call on it raises [AttributeError] on the attribute it reads first, and
    [run] does so before it touches the world. *)
Theorem destroyed_manager_rejects_calls {Thread : Type}
    (drivers : DriverId -> Driver Thread) (cap : RunCap) (fuel : nat)
    (m : Manager) (w : World) (key : string) (value : PyValue)
    (step : ExecStep) (upstream : option Stream) (fn : AIFunc) :
  live m ->
  get (destroy m w).1.2 key = Raise (AttributeError "_values") /\
  set (destroy m w).1.2 key value
  = ((destroy m w).1.2, Raise (AttributeError "_values")) /\
  values (destroy m w).1.2 = Raise (AttributeError "_values") /\
  container (destroy m w).1.2 = Raise (AttributeError "_container") /\
  sub_manager (destroy m w).1.2 step upstream
  = Raise (AttributeError "_container") /\
  run drivers cap fuel (destroy m w).1.2 key fn (destroy m w).1.1
  = ((destroy m w).1.1, (destroy m w).1.2, Raise (AttributeError "_exec_step")).
Proof.
  intros Hlive. destruct (destroy_live m w Hlive) as (c & _ & ->).
  cbn [fst snd]. repeat split.
Qed.

Lemma destroyed_manager_rejects_calls_witness :
  get (destroy (root_manager 10 10) (mkWorld [])).1.2 "a"
  = Raise (AttributeError "_values") /\
  run example_drivers (engine example_drivers 0) 3
    (destroy (root_manager 10 10) (mkWorld [])).1.2 "a" oneshot_task
    (destroy (root_manager 10 10) (mkWorld [])).1.1
  = ((destroy (root_manager 10 10) (mkWorld [])).1.1,
     (destroy (root_manager 10 10) (mkWorld [])).1.2,
     Raise (AttributeError "_exec_step")).
Proof.
  destruct (destroyed_manager_rejects_calls example_drivers
              (engine example_drivers 0) 3 (root_manager 10 10) (mkWorld [])
              "a" PyNone (mkStep 0 1) None oneshot_task
              (root_manager_live 10 10)) as (H1 & _ & _ & _ & _ & H6).
  split; [exact H1 | exact H6].
Defined.

Lemma destroy_gone m w :
  _destroyed m = false -> _container m = None ->
  destroy m w = (w, m, Raise (AttributeError "_container")).
Proof. intros Hd Hc. unfold destroy. rewrite Hd, Hc. reflexivity. Qed.

Lemma destroy_times_gone n : forall m w,
  _destroyed m = false -> _container m = None ->
  destroy_times n m w = (w, m).
Proof.
  induction n as [|n IH]; intros m w Hd Hc; [reflexivity|].
  cbn [destroy_times]. rewrite destroy_gone by assumption. apply IH; assumption.
Qed.

Lemma releases_container_destroy c c' w :
  releases c' (container_destroy c w)
  = (releases c' w + if decide (c' = c) then 1 else 0)%nat.
Proof.
  unfold releases, container_destroy. cbn [destroy_calls].
  rewrite count_occ_app. f_equal. cbn [count_occ].
  destruct (Nat.eq_dec c c'), (decide (c' = c)); congruence.
Qed.

(** X4: However often [destroy] is called on one manager, its container is torn
    down exactly once, by the first call, and no other container is touched:
    the later calls raise before they reach the container. *)
Theorem destroy_repeated_releases_once (m : Manager) (w : World)
    (c c' : ContainerId) (n : nat) :
  live m ->
  _container m = Some c ->
  releases c' (destroy_times (S n) m w).1
  = (releases c' w + if decide (c' = c) then 1 else 0)%nat.
Proof.
  intros Hlive Hc. cbn [destroy_times].
  destruct (destroy_live m w Hlive) as (c0 & Hc0 & ->).
  rewrite Hc in Hc0. injection Hc0 as <-.
  rewrite destroy_times_gone by reflexivity.
  apply releases_container_destroy.
Qed.

Lemma destroy_repeated_releases_once_witness :
  releases 7%nat (destroy_times 3 (root_manager 10 10) (mkWorld [])).1 = 1%nat /\
  releases 8%nat (destroy_times 3 (root_manager 10 10) (mkWorld [])).1 = 0%nat.
Proof.
  split.
  - exact (destroy_repeated_releases_once (root_manager 10 10) (mkWorld [])
             7%nat 7%nat 2 (root_manager_live 10 10) eq_refl).
  - exact (destroy_repeated_releases_once (root_manager 10 10) (mkWorld [])
             7%nat 8%nat 2 (root_manager_live 10 10) eq_refl).
Defined.

(** ** The depth guard of a launch *)

(** X5: A launch whose frame would lie deeper than the maximal depth raises the
    recursion-limit error and changes nothing: the world and the caller are
    as before, no child was made, nothing was stored or destroyed. *)
Theorem run_beyond_depth_changes_nothing {Thread : Type}
    (drivers : DriverId -> Driver Thread) (cap : RunCap) (fuel : nat)
    (self : Manager) (key : string) (fn : AIFunc) (w : World)
    (c : ContainerId) (exec_step : option ExecStep) :
  _container self = Some c ->
  _exec_step self = Some exec_step ->
  _max_depth self
  < match exec_step with Some s => step_depth s + 1 | None => 0 end ->
  run drivers cap fuel self key fn w
  = (w, self,
     Raise (DepthExceeded
              (match exec_step with Some s => step_depth s + 1 | None => 0 end)
              (_max_depth self))).
Proof.
  intros Hc Hes Hdeep. unfold run. rewrite Hes.
  destruct self as [c0 es up name vals D ms dd des]. cbn in Hc, Hes, Hdeep |- *.
  subst c0. unfold launch_frame.
  rewrite sub_manager_too_deep by (destruct exec_step; exact Hdeep).
  destruct exec_step; reflexivity.
Qed.

Lemma run_beyond_depth_changes_nothing_witness :
  run example_drivers (engine example_drivers 0) 3
    (mkManager (Some 7%nat) (Some (Some (mkStep 10 1))) (Some None) ""
       (Some ∅) 10 10 DefaultAIFuncDriverImpl false)
    "a" oneshot_task (mkWorld [])
  = (mkWorld [],
     mkManager (Some 7%nat) (Some (Some (mkStep 10 1))) (Some None) ""
       (Some ∅) 10 10 DefaultAIFuncDriverImpl false,
     Raise (DepthExceeded 11 10)).
Proof.
  apply (run_beyond_depth_changes_nothing example_drivers
           (engine example_drivers 0) 3
           (mkManager (Some 7%nat) (Some (Some (mkStep 10 1))) (Some None) ""
              (Some ∅) 10 10 DefaultAIFuncDriverImpl false)
           "a" oneshot_task (mkWorld [])
           7%nat (Some (mkStep 10 1)) eq_refl eq_refl).
  simpl. lia.
Defined.

(** ** The think loop, whatever the driver *)

Section LoopBounds.

Context {Thread : Type}.
Variable cap : RunCap.
Variable d : Driver Thread.
Variable fn : AIFunc.
Variable upstream : option Stream.

(** Under a bound [S >= 1] the loop never calls [think] more often than the
    iterations it has left. *)
Lemma think_loop_thinks (S : Z) :
  keeps_max_step d -> 1 <= S ->
  forall fuel step thinks w self frame thread,
    _max_step self = S -> 0 <= step <= S ->
    (out_thinks (think_loop cap d fn upstream fuel step thinks w self frame thread)
     <= thinks + Z.to_nat (S - step))%nat.
Proof.
  intros Hkeep HS. induction fuel as [|fuel IH];
    intros step thinks w self frame thread Hms Hstep; [simpl; lia|].
  cbn [think_loop]. destruct (new_step frame) as [frame' exec_step].
  rewrite Hms.
  destruct (negb (S =? 0) && (S <? step + 1)) eqn:Hchk; [simpl; lia|].
  apply andb_false_iff in Hchk as [Hchk|Hchk];
    [apply negb_false_iff in Hchk; lia|].
  specialize (Hkeep fn cap self thread exec_step upstream w).
  destruct (think d fn cap self thread exec_step upstream w)
    as [[w' self'] res]. simpl in Hkeep.
  assert (E : Z.to_nat (S - step) = Datatypes.S (Z.to_nat (S - (step + 1)))).
  { replace (S - step) with (Z.succ (S - (step + 1))) by lia.
    rewrite Z2Nat.inj_succ by lia. reflexivity. }
  destruct res as [[[t' r] [|]]|e|]; simpl; try lia.
  specialize (IH (step + 1) (Datatypes.S thinks) w' self' frame' t').
  etransitivity; [apply IH; lia|]. lia.
Qed.

(** The loop only appends to the frame: one step for each [think] call, and
    one more when it stopped on the step limit; the depth stays. *)
Lemma think_loop_appends :
  forall fuel step thinks w self frame thread,
    let out := think_loop cap d fn upstream fuel step thinks w self frame thread in
    exists added,
      frame_steps (out_frame out) = frame_steps frame ++ added /\
      frame_depth (out_frame out) = frame_depth frame /\
      (thinks <= out_thinks out)%nat /\
      (out_thinks out - thinks <= length added
       <= Datatypes.S (out_thinks out - thinks))%nat.
Proof.
  induction fuel as [|fuel IH]; intros step thinks w self frame thread.
  - exists []. simpl. rewrite app_nil_r. repeat split; lia.
  - cbn [think_loop]. cbn [new_step].
    set (s1 := mkStep (frame_depth frame)
                 (Datatypes.S (length (frame_steps frame)))).
    set (frame' := mkFrame (frame_depth frame) (frame_steps frame ++ [s1])).
    destruct (negb (_max_step self =? 0) && (_max_step self <? step + 1)).
    { exists [s1]. simpl. repeat split; lia. }
    destruct (think d fn cap self thread s1 upstream w)
      as [[w' self'] [[[t' r] [|]]|e|]].
    + exists [s1]. simpl. repeat split; lia.
    + destruct (IH (step + 1) (Datatypes.S thinks) w' self' frame' t')
        as (added & H1 & H2 & H3 & H4).
      cbv zeta in *.
      set (out := think_loop cap d fn upstream fuel (step + 1)
                    (Datatypes.S thinks) w' self' frame' t') in *.
      exists (s1 :: added). rewrite H1, H2. unfold frame'.
      cbn [frame_steps frame_depth length]. rewrite <- app_assoc.
      split; [reflexivity|]. split; [reflexivity|].
      revert H3 H4. generalize (out_thinks out) (length added).
      intros n k H3 H4. lia.
    + exists [s1]. simpl. repeat split; lia.
    + exists [s1]. simpl. repeat split; lia.
Qed.

End LoopBounds.

Lemma execute_out_thinks {Thread : Type} (drivers : DriverId -> Driver Thread)
    cap fuel self fn frame upstream w :
  out_thinks (execute drivers cap fuel self fn frame upstream w)
  = out_thinks (think_loop cap (get_driver drivers self fn) fn upstream fuel 0
                  0%nat w self (default (from_func fn) frame)
                  (initialize (get_driver drivers self fn) fn)).
Proof.
  unfold execute. cbv zeta.
  destruct (out_res _) as [result| |]; try reflexivity.
  destruct (negb (is_none result) && negb (isinstance_AIFuncResult result));
    reflexivity.
Qed.

(** X6: Under a step bound [S >= 1], [execute] calls [think] at most [S] times,
    whatever the driver returns or raises and however long it is left to run. *)
Theorem execute_thinks_at_most_bound {Thread : Type}
    (drivers : DriverId -> Driver Thread) (cap : RunCap) (self : Manager)
    (fn : AIFunc) (frame : option ExecFrame) (upstream : option Stream)
    (w : World) (fuel : nat) (S : Z) :
  1 <= S ->
  _max_step self = S ->
  keeps_max_step (get_driver drivers self fn) ->
  Z.of_nat (out_thinks (execute drivers cap fuel self fn frame upstream w)) <= S.
Proof.
  intros HS Hms Hkeep. rewrite execute_out_thinks.
  pose proof (think_loop_thinks cap (get_driver drivers self fn) fn upstream S
                Hkeep HS fuel 0 0%nat w self (default (from_func fn) frame)
                (initialize (get_driver drivers self fn) fn) Hms) as H.
  rewrite Z.sub_0_r in H. specialize (H ltac:(lia)). lia.
Qed.

Lemma execute_thinks_at_most_bound_witness :
  Z.of_nat (out_thinks (execute example_drivers (engine example_drivers 0) 9
                          (root_manager 10 3) oneshot_task None None
                          (mkWorld [])))
  <= 3.
Proof.
  apply (execute_thinks_at_most_bound example_drivers
           (engine example_drivers 0) (root_manager 10 3) oneshot_task None
           None (mkWorld []) 9 3).
  - lia.
  - reflexivity.
  - exact oneshot_keeps_max_step.
Defined.

(** X7: [execute] only appends to the frame it works on: the steps that were
    there stay in place, the depth stays, and the number of steps added is the
    number of [think] calls, or one more. *)
Theorem execute_appends_step_per_think {Thread : Type}
    (drivers : DriverId -> Driver Thread) (cap : RunCap) (self : Manager)
    (fn : AIFunc) (frame : option ExecFrame) (upstream : option Stream)
    (w : World) (fuel : nat) :
  exists added,
    frame_steps (out_frame (execute drivers cap fuel self fn frame upstream w))
    = frame_steps (default (from_func fn) frame) ++ added /\
    frame_depth (out_frame (execute drivers cap fuel self fn frame upstream w))
    = frame_depth (default (from_func fn) frame) /\
    (out_thinks (execute drivers cap fuel self fn frame upstream w)
     <= length added
     <= Datatypes.S
          (out_thinks (execute drivers cap fuel self fn frame upstream w)))%nat.
Proof.
  rewrite execute_out_frame, execute_out_thinks.
  destruct (think_loop_appends cap (get_driver drivers self fn) fn upstream
              fuel 0 0%nat w self (default (from_func fn) frame)
              (initialize (get_driver drivers self fn) fn))
    as (added & H1 & H2 & _ & H4).
  exists added. rewrite Nat.sub_0_r in H4. auto.
Qed.

(** X8: With a negative step bound, [execute] raises the step-limit error in its
    first iteration, before any call of [think]; the step of that iteration is
    on the frame all the same, the world and the manager are untouched. *)
Theorem execute_negative_bound_raises_at_once {Thread : Type}
    (drivers : DriverId -> Driver Thread) (cap : RunCap) (self : Manager)
    (fn : AIFunc) (frame : option ExecFrame) (upstream : option Stream)
    (w : World) (fuel : nat) :
  _max_step self < 0 ->
  execute drivers cap (S fuel) self fn frame upstream w
  = mkOut w self (new_step (default (from_func fn) frame)).1 0
      (Raise (ExceededMaxStep (_max_step self))).
Proof.
  intros Hneg. unfold execute. cbv zeta. cbn [think_loop].
  destruct (new_step (default (from_func fn) frame)) as [frame' exec_step].
  replace (negb (_max_step self =? 0) && (_max_step self <? 0 + 1)) with true
    by (symmetry; apply andb_true_intro; split;
        [apply negb_true_iff; lia | lia]).
  reflexivity.
Qed.

Lemma execute_negative_bound_raises_at_once_witness :
  execute example_drivers (engine example_drivers 0) 5 (root_manager 10 (-1))
    oneshot_task None None (mkWorld [])
  = mkOut (mkWorld []) (root_manager 10 (-1)) (mkFrame 0 [mkStep 0 1]) 0
      (Raise (ExceededMaxStep (-1))).
Proof.
  apply (execute_negative_bound_raises_at_once example_drivers
           (engine example_drivers 0) (root_manager 10 (-1)) oneshot_task None
           None (mkWorld []) 4).
  simpl. lia.
Defined.

Lemma execute_return_valid {Thread : Type}
    (drivers : DriverId -> Driver Thread) (cap : RunCap) (self : Manager)
    (fn : AIFunc) (frame : option ExecFrame) (upstream : option Stream)
    (w : World) (fuel : nat) (v : PyValue) :
  out_res (execute drivers cap fuel self fn frame upstream w) = Return v ->
  valid_result v = true.
Proof.
  unfold execute. cbv zeta.
  destruct (out_res (think_loop _ _ _ _ _ _ _ _ _ _ _)) as [result|e|] eqn:E.
  - destruct (negb (is_none result) && negb (isinstance_AIFuncResult result))
      eqn:Hchk; cbn [out_res].
    + discriminate.
    + rewrite E. intros [= <-]. unfold valid_result.
      destruct (is_none result), (isinstance_AIFuncResult result);
        simpl in *; congruence.
  - rewrite E. discriminate.
  - rewrite E. discriminate.
Qed.

(** X9: Whatever the driver hands back, [execute] returns only [None] or an
    instance of [AIFuncResult]. *)
Theorem execute_returns_none_or_result {Thread : Type}
    (drivers : DriverId -> Driver Thread) (cap : RunCap) (self : Manager)
    (fn : AIFunc) (frame : option ExecFrame) (upstream : option Stream)
    (w : World) (fuel : nat) (v : PyValue) :
  out_res (execute drivers cap fuel self fn frame upstream w) = Return v ->
  valid_result v = true.
Proof. apply execute_return_valid. Qed.

Lemma execute_returns_none_or_result_witness :
  valid_result (PyResult "MyResult" 42) = true.
Proof.
  exact (execute_returns_none_or_result example_drivers
           (engine example_drivers 0) (root_manager 10 10) oneshot_task None
           None (mkWorld []) 3 (PyResult "MyResult" 42) eq_refl).
Defined.

Lemma execute_first_think_outcome {Thread : Type}
    (drivers : DriverId -> Driver Thread) (cap : RunCap) (fuel : nat)
    (self : Manager) (fn : AIFunc) (frame : option ExecFrame)
    (upstream : option Stream) (w w' : World) (self' : Manager) (t' : Thread)
    (result : PyValue) :
  _max_step self = 0 \/ 1 <= _max_step self ->
  think (get_driver drivers self fn) fn cap self
    (initialize (get_driver drivers self fn) fn)
    (new_step (default (from_func fn) frame)).2 upstream w
  = (w', self', Return (t', result, true)) ->
  execute drivers cap (S fuel) self fn frame upstream w
  = mkOut w' self' (new_step (default (from_func fn) frame)).1 1
      (if valid_result result then Return result
       else Raise (InvalidResult (type_of result) (get_aifunc_result_type fn))).
Proof.
  intros Hms Hthink. unfold execute. cbv zeta. cbn [think_loop].
  destruct (new_step (default (from_func fn) frame)) as [frame' exec_step].
  simpl in Hthink.
  replace (negb (_max_step self =? 0) && (_max_step self <? 0 + 1)) with false
    by (symmetry; destruct Hms as [->|Hms]; [reflexivity|];
        apply andb_false_iff; right; lia).
  rewrite Hthink. cbn [out_res out_world out_self out_frame out_thinks].
  unfold valid_result.
  destruct (is_none result), (isinstance_AIFuncResult result); reflexivity.
Qed.

(** X10: A driver that finishes in its first [think] makes [execute] take one
    step and call [think] once; the value it hands back is returned when it is
    [None] or an [AIFuncResult], and raises the result error otherwise. *)
Theorem execute_first_think_finishes {Thread : Type}
    (drivers : DriverId -> Driver Thread) (cap : RunCap) (fuel : nat)
    (self : Manager) (fn : AIFunc) (frame : option ExecFrame)
    (upstream : option Stream) (w w' : World) (self' : Manager) (t' : Thread)
    (result : PyValue) :
  _max_step self = 0 \/ 1 <= _max_step self ->
  think (get_driver drivers self fn) fn cap self
    (initialize (get_driver drivers self fn) fn)
    (new_step (default (from_func fn) frame)).2 upstream w
  = (w', self', Return (t', result, true)) ->
  execute drivers cap (S fuel) self fn frame upstream w
  = mkOut w' self' (new_step (default (from_func fn) frame)).1 1
      (if valid_result result then Return result
       else Raise (InvalidResult (type_of result) (get_aifunc_result_type fn))).
Proof. apply execute_first_think_outcome. Qed.

Lemma execute_first_think_finishes_witness :
  execute example_drivers (engine example_drivers 0) 1 (root_manager 10 0)
    (mkAIFunc (Some 4%nat) "MyResult" 0) None None (mkWorld [])
  = mkOut (mkWorld []) (root_manager 10 0) (mkFrame 0 [mkStep 0 1]) 1
      (Raise (InvalidResult "str" "MyResult")).
Proof.
  exact (execute_first_think_finishes example_drivers
           (engine example_drivers 0) 0 (root_manager 10 0)
           (mkAIFunc (Some 4%nat) "MyResult" 0) None None (mkWorld [])
           (mkWorld []) (root_manager 10 0) 1%nat (PyObject "str" 1)
           (or_introl eq_refl) eq_refl).
Defined.

(** ** What [run] does to its caller *)

Lemma run_effect_on_caller {Thread : Type}
    (drivers : DriverId -> Driver Thread) (cap : RunCap) (fuel : nat)
    (self : Manager) (key : string) (fn : AIFunc) (w : World) :
  ((run drivers cap fuel self key fn w).1.2 = self \/
   exists vals v,
     _values self = Some vals /\ valid_result v = true /\
     (run drivers cap fuel self key fn w).1.2 = store self vals key v) /\
  (forall v,
     (run drivers cap fuel self key fn w).2 = Return v ->
     valid_result v = true /\
     exists vals,
       _values self = Some vals /\
       (run drivers cap fuel self key fn w).1.2 = store self vals key v).
Proof.
  unfold run.
  destruct (_exec_step self) as [exec_step|];
    [|split; [left; reflexivity|discriminate]].
  destruct (launch_frame exec_step fn) as [frame sub_step].
  destruct (sub_manager self sub_step None) as [child| |];
    try (split; [left; reflexivity|discriminate]).
  destruct (_upstream self) as [upstream|].
  - pose proof (execute_return_valid drivers cap child fn (Some frame) upstream
                  w fuel) as Hvalid.
    destruct (out_res (execute drivers cap fuel child fn (Some frame) upstream w))
      as [result| |] eqn:Hres.
    + specialize (Hvalid result eq_refl).
      destruct (_values self) as [vals|] eqn:Hvals.
      * destruct (destroy _ _) as [[w' child'] [[]| |]]; cbn [fst snd];
          (split; [right; exists vals, result; auto|]); try discriminate.
        intros v [= <-]. split; [exact Hvalid|]. exists vals. auto.
      * destruct (destroy _ _) as [[w' child'] [[]| |]]; cbn [fst snd];
          (split; [left; reflexivity|discriminate]).
    + destruct (destroy _ _) as [[w' child'] [[]| |]]; cbn [fst snd];
        (split; [left; reflexivity|discriminate]).
    + split; [left; reflexivity|discriminate].
  - destruct (destroy _ _) as [[w' child'] [[]| |]]; cbn [fst snd];
      (split; [left; reflexivity|discriminate]).
Qed.

(** X11: [run] changes nothing of the manager it is called on except the entry of
    its store under the key, and what it writes there is [None] or an
    [AIFuncResult]: the manager afterwards is the manager before, or the
    manager before with such a value stored under the key.  When [run]
    returns a value, that value is the one stored. *)
Theorem run_only_writes_result {Thread : Type}
    (drivers : DriverId -> Driver Thread) (cap : RunCap) (fuel : nat)
    (self : Manager) (key : string) (fn : AIFunc) (w : World) :
  ((run drivers cap fuel self key fn w).1.2 = self \/
   exists vals v,
     _values self = Some vals /\ valid_result v = true /\
     (run drivers cap fuel self key fn w).1.2 = store self vals key v) /\
  (forall v,
     (run drivers cap fuel self key fn w).2 = Return v ->
     valid_result v = true /\
     exists vals,
       _values self = Some vals /\
       (run drivers cap fuel self key fn w).1.2 = store self vals key v).
Proof. apply run_effect_on_caller. Qed.

(** ** The step bound of a child *)

Lemma leaves_manager_keeps_max_step {Thread : Type} (d : Driver Thread) :
  leaves_manager d -> keeps_max_step d.
Proof. intros H fn cap m t s u w. rewrite H. reflexivity. Qed.

Lemma think_loop_leaves_manager {Thread : Type} cap (d : Driver Thread) fn
    upstream :
  leaves_manager d ->
  forall fuel step thinks w self frame thread,
    out_self (think_loop cap d fn upstream fuel step thinks w self frame thread)
    = self.
Proof.
  intros Hleave. induction fuel as [|fuel IH];
    intros step thinks w self frame thread; [reflexivity|].
  cbn [think_loop]. destruct (new_step frame) as [frame' exec_step].
  destruct (negb (_max_step self =? 0) && (_max_step self <? step + 1));
    [reflexivity|].
  specialize (Hleave fn cap self thread exec_step upstream w).
  destruct (think d fn cap self thread exec_step upstream w)
    as [[w' self'] res]. simpl in Hleave. subst self'.
  destruct res as [[[t' r] [|]]|e|]; try reflexivity. apply IH.
Qed.

Lemma execute_out_self {Thread : Type} (drivers : DriverId -> Driver Thread)
    cap fuel self fn frame upstream w :
  out_self (execute drivers cap fuel self fn frame upstream w)
  = out_self (think_loop cap (get_driver drivers self fn) fn upstream fuel 0
                0%nat w self (default (from_func fn) frame)
                (initialize (get_driver drivers self fn) fn)).
Proof.
  unfold execute. cbv zeta.
  destruct (out_res _) as [result| |]; try reflexivity.
  destruct (negb (is_none result) && negb (isinstance_AIFuncResult result));
    reflexivity.
Qed.

(** X12: The step bound is not handed down: a launch runs its task under the
    constructor's default of 10 steps, whatever bound the caller was built
    with (0, for no limit, included).  With a driver that never finishes,
    [run] raises the step-limit error for 10, the child torn down, the
    caller unchanged. *)
Theorem run_child_runs_under_default_bound {Thread : Type}
    (drivers : DriverId -> Driver Thread) (cap : RunCap) (fuel : nat)
    (self : Manager) (key : string) (fn : AIFunc) (w : World)
    (c : ContainerId) (exec_step : option ExecStep)
    (upstream : option Stream) (vals : gmap string PyValue) :
  _container self = Some c ->
  _exec_step self = Some exec_step ->
  _upstream self = Some upstream ->
  _values self = Some vals ->
  match exec_step with Some s => step_depth s + 1 | None => 0 end
  <= _max_depth self ->
  leaves_manager (get_driver drivers self fn) ->
  never_finishes (get_driver drivers self fn) ->
  (10 < fuel)%nat ->
  exists w',
    run drivers cap fuel self key fn w
    = (container_destroy c w', self, Raise (ExceededMaxStep 10)).
Proof.
  intros Hc Hes Hup Hvals Hdepth Hleave Hnf Hfuel.
  destruct self as [c0 es up name vs D ms dd des].
  cbn in Hc, Hes, Hup, Hvals, Hdepth. subst c0 es up vs.
  set (self := mkManager (Some c) (Some exec_step) (Some upstream) name
                 (Some vals) D ms dd des) in *.
  pose proof (sub_manager_within c (Some exec_step) (Some upstream) name
                (Some vals) D ms dd des (launch_frame exec_step fn).2 None
                ltac:(destruct exec_step; exact Hdepth)) as Hsub.
  set (child := mkManager (Some c) (Some (Some (launch_frame exec_step fn).2))
                  (Some None) name (Some ∅) D 10 dd false) in *.
  change (get_driver drivers self fn) with (get_driver drivers child fn)
    in Hleave, Hnf.
  set (out := execute drivers cap fuel child fn
                (Some (launch_frame exec_step fn).1) upstream w).
  assert (Hself : out_self out = child).
  { unfold out. rewrite execute_out_self.
    apply think_loop_leaves_manager. exact Hleave. }
  assert (Hres : out_res out = Raise (ExceededMaxStep 10)).
  { unfold out, execute. cbv zeta.
    destruct (think_loop_limit cap (get_driver drivers child fn) fn upstream 10
                (leaves_manager_keeps_max_step _ Hleave) Hnf ltac:(lia) fuel 0
                0%nat w child (default (from_func fn)
                                 (Some (launch_frame exec_step fn).1))
                (initialize (get_driver drivers child fn) fn) eq_refl
                ltac:(lia) ltac:(simpl; lia)) as [H1 _].
    rewrite H1. exact H1. }
  exists (out_world out).
  rewrite (run_outcome drivers cap fuel self key fn w exec_step upstream vals
             child c eq_refl eq_refl eq_refl Hsub); fold out.
  - rewrite Hres. reflexivity.
  - rewrite Hself. unfold child. solve_live.
  - rewrite Hself. reflexivity.
Qed.

Lemma run_child_runs_under_default_bound_witness :
  exists w',
    run example_drivers (engine example_drivers 0) 11 (root_manager 10 0) "a"
      idle_task (mkWorld [])
    = (container_destroy 7%nat w', root_manager 10 0,
       Raise (ExceededMaxStep 10)).
Proof.
  apply (run_child_runs_under_default_bound example_drivers
           (engine example_drivers 0) 11 (root_manager 10 0) "a" idle_task
           (mkWorld []) 7%nat None None ∅ eq_refl eq_refl eq_refl eq_refl).
  - simpl. lia.
  - intros fn cap m t s u w. reflexivity.
  - exact idle_never_finishes.
  - lia.
Defined.

(** ** Fan-out when every worker succeeds *)

Lemma collect_all_returned futures : forall results self,
  (forall k v, (k, Return v) ∈ futures -> lookup_value self k = Some v) ->
  Forall (fun f => exists v, f.2 = Return v) futures ->
  NoDup (map fst futures) ->
  exists results',
    (collect futures results self).2 = Return results' /\
    dom results' = dom results ∪ list_to_set (map fst futures) /\
    (forall k v, (k, Return v) ∈ futures -> results' !! k = Some v) /\
    (forall k, k ∉ map fst futures -> results' !! k = results !! k).
Proof.
  induction futures as [|[key r] rest IH]; intros results self Hok Hall Hnd.
  - exists results. cbn [collect snd map]. split; [reflexivity|].
    split; [rewrite list_to_set_nil, (right_id_L ∅ (∪)); reflexivity|].
    split; [|reflexivity].
    intros k v Hin. apply elem_of_nil in Hin. contradiction.
  - apply Forall_cons in Hall as [[v Hv] Hall]. simpl in Hv. subst r.
    simpl in Hnd. apply NoDup_cons in Hnd as [Hkey Hnd].
    pose proof (Hok key v (list_elem_of_here _ _)) as Hk.
    unfold lookup_value in Hk.
    destruct (_values self) as [vals|] eqn:Hvals; [|discriminate].
    cbn [collect]. rewrite Hvals.
    destruct (IH (<[key := v]> results) (store self vals key v))
      as (results' & H1 & H2 & H3 & H4); [|exact Hall|exact Hnd|].
    { intros k' v' Hin. rewrite lookup_value_store.
      destruct (decide (key = k')) as [<-|].
      - rewrite <- Hk. specialize (Hok key v' (list_elem_of_further _ _ _ Hin)).
        unfold lookup_value in Hok. rewrite Hvals in Hok. congruence.
      - specialize (Hok k' v' (list_elem_of_further _ _ _ Hin)).
        unfold lookup_value in Hok. rewrite Hvals in Hok. exact Hok. }
    exists results'. split; [exact H1|]. split; [|split].
    + rewrite H2, dom_insert_L. cbn [map fst]. rewrite list_to_set_cons.
      rewrite (comm_L (∪) {[key]} (dom results)), (assoc_L (∪)).
      reflexivity.
    + intros k v' Hin. apply elem_of_cons in Hin as [[= -> ->]|Hin].
      * rewrite H4 by exact Hkey. apply lookup_insert_eq.
      * apply H3. exact Hin.
    + intros k Hk'. simpl in Hk'. apply not_elem_of_cons in Hk' as [Hne Hk'].
      rewrite H4 by exact Hk'. apply lookup_insert_ne. congruence.
Qed.

Lemma all_returned_none_running futures :
  Forall (fun f : string * Res PyValue => exists v, f.2 = Return v) futures ->
  existsb still_running futures = false.
Proof.
  induction 1 as [|[k r] rest [v Hv] _ IH]; [reflexivity|].
  simpl in *. subst r. exact IH.
Qed.

(** X13: When every worker of [parallel_run] returns, in whatever order they
    complete, the call returns a mapping with exactly the keys it was given,
    each holding the result of its worker, and [get] finds each result in the
    caller's store as well. *)
Theorem parallel_run_all_succeed {Thread : Type}
    (drivers : DriverId -> Driver Thread) (cap : RunCap) (fuel : nat)
    (self : Manager) (completion : list (string * AIFunc)) (w : World) :
  completion <> [] ->
  NoDup (map fst completion) ->
  Forall (fun f => exists v, f.2 = Return v)
    (run_workers drivers cap fuel self completion w).2 ->
  exists self' results,
    parallel_run drivers cap fuel self completion w
    = ((run_workers drivers cap fuel self completion w).1.1, self',
       Return results) /\
    dom results = list_to_set (map fst completion) /\
    (forall k v,
       (k, Return v) ∈ (run_workers drivers cap fuel self completion w).2 ->
       results !! k = Some v /\ get self' k = Return v).
Proof.
  intros Hne Hnd Hall.
  pose proof (fun k v => run_workers_stored drivers cap fuel completion self w
                           k v Hnd) as Hstored.
  pose proof (run_workers_keys drivers cap fuel completion self w) as Hkeys.
  unfold parallel_run. destruct completion as [|item rest]; [congruence|].
  destruct (run_workers drivers cap fuel self (item :: rest) w)
    as [[w1 self1] futures]. cbn [fst snd] in *.
  destruct (collect_all_returned futures ∅ self1 Hstored Hall
              ltac:(rewrite Hkeys; exact Hnd))
    as (results & H1 & H2 & H3 & _).
  pose proof (collect_lookup futures ∅ self1 Hstored) as Hget.
  destruct (collect futures ∅ self1) as [self' r]. cbn [fst snd] in *. subst r.
  rewrite (all_returned_none_running futures Hall).
  exists self', results. split; [reflexivity|]. split.
  - rewrite H2, Hkeys, dom_empty_L, (left_id_L ∅ (∪)). reflexivity.
  - intros k v Hin. split; [apply H3; exact Hin|].
    apply get_lookup_value. rewrite Hget. apply Hstored. exact Hin.
Qed.

Lemma parallel_run_all_succeed_witness :
  exists self' results,
    parallel_run example_drivers (engine example_drivers 0) 3
      (root_manager 10 10)
      [("b", mkAIFunc None "MyResult" 7); ("a", oneshot_task)] (mkWorld [])
    = (mkWorld [7%nat; 7%nat], self', Return results) /\
    dom results = list_to_set ["b"; "a"] /\
    results !! "a" = Some (PyResult "MyResult" 42) /\
    get self' "a" = Return (PyResult "MyResult" 42).
Proof.
  destruct (parallel_run_all_succeed example_drivers
              (engine example_drivers 0) 3 (root_manager 10 10)
              [("b", mkAIFunc None "MyResult" 7); ("a", oneshot_task)]
              (mkWorld [])) as (self' & results & H1 & H2 & H3).
  - discriminate.
  - simpl. apply NoDup_cons. split; [|apply NoDup_singleton].
    intros H. apply list_elem_of_singleton in H. discriminate.
  - repeat constructor; eexists; reflexivity.
  - exists self', results. split; [exact H1|]. split; [exact H2|].
    apply (H3 "a" (PyResult "MyResult" 42)).
    apply list_elem_of_further, list_elem_of_here.
Defined.

(** X14: The loop that takes the futures in writes nothing new into the caller's
    store: after [parallel_run], whether it returned or raised, every key
    reads as it did once the workers were done, each worker's [run] having
    stored its result itself. *)
Theorem parallel_run_collect_writes_nothing_new {Thread : Type}
    (drivers : DriverId -> Driver Thread) (cap : RunCap) (fuel : nat)
    (self : Manager) (completion : list (string * AIFunc)) (w : World)
    (k : string) :
  completion <> [] ->
  NoDup (map fst completion) ->
  lookup_value (parallel_run drivers cap fuel self completion w).1.2 k
  = lookup_value (run_workers drivers cap fuel self completion w).1.2 k.
Proof.
  intros Hne Hnd.
  pose proof (fun k v => run_workers_stored drivers cap fuel completion self w
                           k v Hnd) as Hstored.
  unfold parallel_run. destruct completion as [|item rest]; [congruence|].
  destruct (run_workers drivers cap fuel self (item :: rest) w)
    as [[w1 self1] futures]. cbn [fst snd] in *.
  pose proof (collect_lookup futures ∅ self1 Hstored k) as Hget.
  destruct (collect futures ∅ self1) as [self' r].
  destruct (existsb still_running futures); exact Hget.
Qed.

Lemma parallel_run_collect_writes_nothing_new_witness :
  lookup_value
    (parallel_run example_drivers (engine example_drivers 0) 3
       (root_manager 10 10) [("b", failing_task); ("a", oneshot_task)]
       (mkWorld [])).1.2 "a"
  = lookup_value
      (run_workers example_drivers (engine example_drivers 0) 3
         (root_manager 10 10) [("b", failing_task); ("a", oneshot_task)]
         (mkWorld [])).1.2 "a".
Proof.
  apply (parallel_run_collect_writes_nothing_new example_drivers
           (engine example_drivers 0) 3 (root_manager 10 10)
           [("b", failing_task); ("a", oneshot_task)] (mkWorld []) "a").
  - discriminate.
  - simpl. apply NoDup_cons. split; [|apply NoDup_singleton].
    intros H. apply list_elem_of_singleton in H. discriminate.
Defined.

(** ** The provider *)

(** X15: A manager built by the provider's factory is in working order with an
    empty store, and is never a singleton.  Launching on it a task whose
    driver finishes at once with a proper value returns that value, leaves it
    in the manager's store under the key, and tears the child down, which is
    one [destroy] call on the container the factory was given. *)
Theorem factory_manager_runs_oneshot_task {Thread : Type}
    (drivers : DriverId -> Driver Thread) (cap : RunCap) (fuel : nat)
    (p : DefaultAIFuncManagerProvider) (con : ContainerId) (m : Manager)
    (key : string) (fn : AIFunc) (v : PyValue) (w : World) :
  factory p con = Return m ->
  finishes_at_once (get_driver drivers m fn) fn v ->
  valid_result v = true ->
  singleton p = false /\
  live m /\
  (forall k, get m k = Return PyNone) /\
  run drivers cap (S fuel) m key fn w
  = (container_destroy con w, store m ∅ key v, Return v) /\
  get (store m ∅ key v) key = Return v.
Proof.
  intros Hfac Hone Hvalid. unfold factory in Hfac.
  pose proof (init_live _ _ _ _ _ _ _ _ Hfac) as Hlive.
  apply init_inv in Hfac. subst m.
  set (m := mkManager _ _ _ _ _ _ _ _ _) in *.
  split; [reflexivity|]. split; [exact Hlive|]. split; [reflexivity|].
  split.
  - pose proof (sub_manager_within con (Some None) (Some None)
                  (provider_llm_api_name p) (Some ∅) 10 10
                  DefaultAIFuncDriverImpl false (launch_frame None fn).2 None
                  ltac:(simpl; lia)) as Hsub.
    set (child := mkManager (Some con) (Some (Some (launch_frame None fn).2))
                    (Some None) (provider_llm_api_name p) (Some ∅) 10 10
                    DefaultAIFuncDriverImpl false) in *.
    change (get_driver drivers m fn) with (get_driver drivers child fn) in Hone.
    destruct (Hone cap child (initialize (get_driver drivers child fn) fn)
                (new_step (default (from_func fn)
                             (Some (launch_frame None fn).1))).2
                None w) as [t' Hthink].
    assert (Hms : _max_step child = 0 \/ 1 <= _max_step child)
      by (right; unfold child; simpl; lia).
    pose proof (execute_first_think_outcome drivers cap fuel child fn
                  (Some (launch_frame None fn).1) None w w child t' v
                  Hms Hthink) as Hexec.
    rewrite Hvalid in Hexec.
    rewrite (run_outcome drivers cap (S fuel) m key fn w None None ∅ child con
               eq_refl eq_refl eq_refl Hsub); rewrite Hexec.
    + reflexivity.
    + unfold child. solve_live.
    + reflexivity.
  - apply get_lookup_value. rewrite lookup_value_store.
    destruct (decide (key = key)); [reflexivity|congruence].
Qed.

Lemma factory_manager_runs_oneshot_task_witness :
  run example_drivers (engine example_drivers 0) 1 (root_manager 10 10) "a"
    oneshot_task (mkWorld [])
  = (mkWorld [7%nat],
     store (root_manager 10 10) ∅ "a" (PyResult "MyResult" 42),
     Return (PyResult "MyResult" 42)).
Proof.
  refine (proj1 (proj2 (proj2 (proj2
            (factory_manager_runs_oneshot_task example_drivers
               (engine example_drivers 0) 0 (mkProvider "") 7%nat
               (root_manager 10 10) "a" oneshot_task (PyResult "MyResult" 42)
               (mkWorld []) eq_refl _ eq_refl))))).
  intros cap m t s u w. eexists. reflexivity.
Defined.

(** ** Fan-out of one task *)

(** X16: [parallel_run] on a mapping with a single entry is [run] on that entry:
    the same world and the same caller afterwards, the same exception when
    [run] raises, and the one-entry mapping from the key to the result when
    it returns. *)
Theorem parallel_run_single_is_run {Thread : Type}
    (drivers : DriverId -> Driver Thread) (cap : RunCap) (fuel : nat)
    (self : Manager) (key : string) (fn : AIFunc) (w : World) :
  parallel_run drivers cap fuel self [(key, fn)] w
  = ((run drivers cap fuel self key fn w).1,
     match (run drivers cap fuel self key fn w).2 with
     | Return v => Return {[key := v]}
     | Raise e => Raise e
     | OutOfFuel => OutOfFuel
     end).
Proof.
  unfold parallel_run. cbn [run_workers].
  pose proof (proj2 (run_effect_on_caller drivers cap fuel self key fn w))
    as Hrun.
  destruct (run drivers cap fuel self key fn w) as [[w1 self1] [v|e|]];
    cbn [fst snd collect existsb still_running orb] in *; try reflexivity.
  destruct (Hrun v eq_refl) as (_ & vals & _ & ->).
  cbn [_values store]. rewrite insert_empty.
  unfold store. cbn [_container _exec_step _upstream _llm_api_name _max_depth
                     _max_step _default_driver_type _destroyed].
  rewrite insert_insert_eq. reflexivity.
Qed.

(** ** What [execute] itself leaves alone *)

(** X17: [execute] reaches the manager and the world only through the driver:
    with a driver that touches neither, the manager and the world after
    [execute] are the ones before, however the loop ends; in particular
    [execute] stores nothing and tears nothing down. *)
Theorem execute_with_pure_driver {Thread : Type}
    (drivers : DriverId -> Driver Thread) (cap : RunCap) (self : Manager)
    (fn : AIFunc) (frame : option ExecFrame) (upstream : option Stream)
    (w : World) (fuel : nat) :
  pure_driver (get_driver drivers self fn) ->
  out_self (execute drivers cap fuel self fn frame upstream w) = self /\
  out_world (execute drivers cap fuel self fn frame upstream w) = w.
Proof.
  intros Hpure.
  assert (Hloop : forall fuel step thinks frame thread,
            out_self (think_loop cap (get_driver drivers self fn) fn upstream
                        fuel step thinks w self frame thread) = self /\
            out_world (think_loop cap (get_driver drivers self fn) fn upstream
                         fuel step thinks w self frame thread) = w).
  { clear fuel frame. induction fuel as [|fuel IH];
      intros step thinks frame thread; [split; reflexivity|].
    cbn [think_loop]. destruct (new_step frame) as [frame' exec_step].
    destruct (negb (_max_step self =? 0) && (_max_step self <? step + 1));
      [split; reflexivity|].
    specialize (Hpure fn cap self thread exec_step upstream w).
    destruct (think (get_driver drivers self fn) fn cap self thread exec_step
                upstream w) as [[w' self'] res].
    cbn [fst] in Hpure. injection Hpure as -> ->.
    destruct res as [[[t' r] [|]]|e|]; try (split; reflexivity). apply IH. }
  specialize (Hloop fuel 0 0%nat (default (from_func fn) frame)
                (initialize (get_driver drivers self fn) fn)).
  unfold execute. cbv zeta.
  destruct (out_res _) as [result| |]; try exact Hloop.
  destruct (negb (is_none result) && negb (isinstance_AIFuncResult result));
    exact Hloop.
Qed.

Lemma execute_with_pure_driver_witness :
  out_self (execute example_drivers (engine example_drivers 0) 9
              (root_manager 10 3) idle_task None None (mkWorld []))
  = root_manager 10 3 /\
  out_world (execute example_drivers (engine example_drivers 0) 9
               (root_manager 10 3) idle_task None None (mkWorld []))
  = mkWorld [].
Proof.
  apply (execute_with_pure_driver example_drivers (engine example_drivers 0)
           (root_manager 10 3) idle_task None None (mkWorld []) 9).
  intros fn cap m t s u w. reflexivity.
Defined.
